(** * Housing recommendation engine: a shallow embedding and its properties

    The development follows [src/housing_ai.py] (data loading, filtering,
    scoring, free-text query parsing, query answering) and the dispatcher
    of [src/agent_caller.py].

    Modelling conventions.
    - Python [str] values are modelled as byte strings. [lower], [upper],
      [strip] and the regular-expression classes act on the ASCII range as
      CPython does and leave other bytes alone, so the model is Python's on
      ASCII text ([PyStr.isascii]); a property that depends on the casing or
      the white space of other characters carries that as a hypothesis.
    - Python floats are [FNaN] or a rational [FNum q]: infinities and the
      rounding of binary floating point are outside the model. Properties
      are stated so that rounding does not decide them (bounds, order,
      thresholds that are exact doubles).
    - A pandas DataFrame is a list of column labels together with a list of
      indexed rows; a row is a finite map from column labels to values,
      which is also how [_score_listing] reads it ([row.get], [row[...]]).
      Columns carry no dtype: a numeric column is read cell by cell through
      the number it holds ([num_of]), whichever of int64 and float64 pandas
      stores it in, and the text tests of [search] are those of a column
      of text (on a column without text the [.str] accessor of pandas
      raises [AttributeError], which the model does not have: what is said
      of a text filter is said of a search that returns).
    - What belongs to pandas, [re] or the network (the sort behind
      [sort_values], the regular-expression engine behind [str.contains],
      number rendering, the Twilio and SMTP services) is a field of the
      classes [Library] and [Network]; [LibrarySpec] states what a result
      may rely on. *)

From Stdlib Require Import QArith ZArith String Ascii List Sorting.Sorted
  Sorting.Permutation Lia Lqa Qround DecimalString.
From stdpp Require Import gmap strings list.

Open Scope string_scope.

(* ===================================================================== *)
(** * Python strings (ASCII) *)
(* ===================================================================== *)

Module PyStr.

(** [str.isspace] on one character: 0x09-0x0D, 0x1C-0x1F and the blank. *)
Definition isspace (c : ascii) : bool :=
  let n := nat_of_ascii c in
  ((9 <=? n)%nat && (n <=? 13)%nat) || ((28 <=? n)%nat && (n <=? 32)%nat).

Definition isdigit (c : ascii) : bool :=
  let n := nat_of_ascii c in (48 <=? n)%nat && (n <=? 57)%nat.

Definition isupper (c : ascii) : bool :=
  let n := nat_of_ascii c in (65 <=? n)%nat && (n <=? 90)%nat.

Definition islower (c : ascii) : bool :=
  let n := nat_of_ascii c in (97 <=? n)%nat && (n <=? 122)%nat.

Definition isalpha (c : ascii) : bool := isupper c || islower c.

(** The class [\w] of [re]: letters, digits and the underscore. *)
Definition isword (c : ascii) : bool :=
  isalpha c || isdigit c || Ascii.eqb c "_"%char.

Definition lower_char (c : ascii) : ascii :=
  if isupper c then ascii_of_nat (nat_of_ascii c + 32) else c.

Definition upper_char (c : ascii) : ascii :=
  if islower c then ascii_of_nat (nat_of_ascii c - 32) else c.

Fixpoint map_chars (f : ascii -> ascii) (s : string) : string :=
  match s with
  | EmptyString => EmptyString
  | String c s' => String (f c) (map_chars f s')
  end.

(** [s.lower()] and [s.upper()]. *)
Definition lower : string -> string := map_chars lower_char.
Definition upper : string -> string := map_chars upper_char.

(** [s.lstrip()], [s.rstrip()], [s.strip()]. *)
Fixpoint lstrip (s : string) : string :=
  match s with
  | EmptyString => EmptyString
  | String c s' => if isspace c then lstrip s' else s
  end.

Fixpoint rstrip (s : string) : string :=
  match s with
  | EmptyString => EmptyString
  | String c s' =>
      match rstrip s' with
      | EmptyString => if isspace c then EmptyString else String c EmptyString
      | r => String c r
      end
  end.

Definition strip (s : string) : string := rstrip (lstrip s).

(** Every character is white space. *)
Fixpoint allspace (s : string) : bool :=
  match s with
  | EmptyString => true
  | String c s' => isspace c && allspace s'
  end.

(** Some character is white space. *)
Fixpoint has_space (s : string) : bool :=
  match s with
  | EmptyString => false
  | String c s' => isspace c || has_space s'
  end.

(** [s.startswith(p)]. *)
Fixpoint startswith (p s : string) : bool :=
  match p, s with
  | EmptyString, _ => true
  | String a p', String b s' => Ascii.eqb a b && startswith p' s'
  | String _ _, EmptyString => false
  end.

(** [sub in s]. *)
Fixpoint contains (sub s : string) : bool :=
  match s with
  | EmptyString => startswith sub EmptyString
  | String _ s' => startswith sub s || contains sub s'
  end.

(** [s.endswith(p)]. *)
Fixpoint endswith (p s : string) : bool :=
  String.eqb p s ||
  match s with
  | EmptyString => false
  | String _ s' => endswith p s'
  end.

(** [x in (a, b, ...)] for a tuple of strings. *)
Definition in_strs (x : string) (l : list string) : bool :=
  existsb (String.eqb x) l.

(** [any(w in q for w in ws)]. *)
Definition any_in (ws : list string) (q : string) : bool :=
  existsb (fun w => contains w q) ws.

(** [s.title()]: a letter that follows a non-letter is upper-cased, every
    other letter is lower-cased. *)
Fixpoint title_from (prev_alpha : bool) (s : string) : string :=
  match s with
  | EmptyString => EmptyString
  | String c s' =>
      String (if prev_alpha then lower_char c else upper_char c)
             (title_from (isalpha c) s')
  end.

Definition title : string -> string := title_from false.

(** [s[:n]]. *)
Fixpoint take (n : nat) (s : string) : string :=
  match n, s with
  | S n', String c s' => String c (take n' s')
  | _, _ => EmptyString
  end.

(** [str.isascii]: every byte is below 128. *)
Fixpoint isascii (s : string) : bool :=
  match s with
  | EmptyString => true
  | String c s' => (nat_of_ascii c <? 128)%nat && isascii s'
  end.

End PyStr.

(* ===================================================================== *)
(** * Python values *)
(* ===================================================================== *)

Inductive pyfloat : Type :=
| FNaN
| FNum (q : Q).

Inductive pyval : Type :=
| PyNone
| PyBool (b : bool)
| PyInt (z : Z)
| PyFloat (f : pyfloat)
| PyStr (s : string).

(** [bool(v)]: the truth value of a Python object. [nan] is true. *)
Definition truthy (v : pyval) : bool :=
  match v with
  | PyNone => false
  | PyBool b => b
  | PyInt z => negb (z =? 0)%Z
  | PyFloat FNaN => true
  | PyFloat (FNum q) => negb (Qeq_bool q 0)
  | PyStr s => negb (String.eqb s "")
  end.

(** A row of a frame or a listing dictionary. *)
Abbreviation row := (gmap string pyval).

(* ===================================================================== *)
(** * housing_ai.py *)
(* ===================================================================== *)

(** [HousingAI._parse_bool]. *)
Definition _parse_bool (value : pyval) : bool :=
  match value with
  | PyNone => false
  | PyFloat FNaN => false
  | PyBool b => b
  | PyStr s => PyStr.in_strs (PyStr.lower (PyStr.strip s)) ["yes"; "true"; "1"]
  | _ => truthy value
  end.

(** ** Exceptions and fallible computations *)

Inductive exn : Type :=
| KeyError (key : string)     (* a missing column or dictionary key *)
| ReError (pat : string)      (* [re.error]: the pattern does not compile *)
| ValueError (what : string)  (* [int()] or a format on a bad operand *)
| ReadError                   (* [read_csv] could not read its source *)
| OverflowError.              (* [float] of an int beyond the doubles *)

Inductive result (A : Type) : Type :=
| Ok (a : A)
| Raise (e : exn).

Arguments Ok {A} a.
Arguments Raise {A} e.

#[global] Instance result_ret : MRet result := fun A x => Ok x.
#[global] Instance result_bind : MBind result :=
  fun A B f m => match m with Ok a => f a | Raise e => Raise e end.

(** [[f(x) for x in l]] where [f] may raise: the first exception wins. *)
Fixpoint traverse {A B : Type} (f : A -> result B) (l : list A) : result (list B) :=
  match l with
  | [] => Ok []
  | x :: l' => y ← f x; ys ← traverse f l'; mret (y :: ys)
  end.

(** ** Data frames *)

Record DataFrame : Type := mkDF {
  columns : list string;
  rows : list (nat * row)   (* index label, row *)
}.

(** [c in df.columns]. *)
Definition has_column (c : string) (df : DataFrame) : bool :=
  PyStr.in_strs c (columns df).

(** The cell of a row under a column; a hole in the frame reads as NaN. *)
Definition cell (c : string) (r : row) : pyval :=
  default (PyFloat FNaN) (r !! c).

(** [df.empty]: some axis has length zero. *)
Definition empty (df : DataFrame) : bool :=
  match rows df, columns df with
  | _ :: _, _ :: _ => false
  | _, _ => true
  end.

(** [df[c] = df[c].map(f)] for a column that exists: labels and order of
    the columns are unchanged. *)
Definition map_column (c : string) (f : pyval -> pyval) (df : DataFrame) : DataFrame :=
  mkDF (columns df) (map (fun ir => (ir.1, <[c := f (cell c ir.2)]> ir.2)) (rows df)).

(** [df[df[c] ...]]: boolean indexing by an element-wise test on column [c].
    Reading a column that is not there is a [KeyError]. *)
Definition select (c : string) (test : pyval -> bool) (df : DataFrame) : result DataFrame :=
  if has_column c df
  then Ok (mkDF (columns df) (List.filter (fun ir => test (cell c ir.2)) (rows df)))
  else Raise (KeyError c).

(** [df.head(n)]: the first [n] rows, or all but the last [-n] for [n < 0]. *)
Definition head (n : Z) (df : DataFrame) : DataFrame :=
  mkDF (columns df)
       (if (0 <=? n)%Z then firstn (Z.to_nat n) (rows df)
        else firstn (length (rows df) - Z.to_nat (- n)) (rows df)).

(** ** What the libraries provide *)

Class Library : Type := {
  (** [pd.to_numeric(..., errors="coerce")] on a text cell. *)
  parse_number : string -> pyfloat;
  (** [float(s)] on a string; [None] is a [ValueError]. *)
  float_of_str : string -> option pyfloat;
  (** [repr] of a float that is a number. *)
  float_repr : Q -> string;
  (** [format(x, ",.0f")]. *)
  format_thousands : pyfloat -> string;
  (** [re.compile(pat, re.IGNORECASE)] followed by
      [lambda x: pat.search(x) is not None]; [None] is a [re.error]. *)
  re_search_ignorecase : string -> option (string -> bool);
  (** The order in which [DataFrame.sort_values(by, ascending=False)], with
      its default algorithm, leaves the rows; the first argument reads the
      sort key off a row. *)
  sort_values_desc : (row -> Q) -> list (nat * row) -> list (nat * row)
}.

(** Descending order of the keys. *)
Definition desc (key : row -> Q) (a b : nat * row) : Prop :=
  (key b.2 <= key a.2)%Q.

(** What pandas documents of a sort: the rows are rearranged, and come out
    in descending order of the key. Nothing is promised about ties. *)
Class LibrarySpec (L : Library) : Prop := {
  sort_values_perm : forall key l, Permutation (sort_values_desc key l) l;
  sort_values_sorted : forall key l, StronglySorted (desc key) (sort_values_desc key l)
}.

(** [str(v)]. *)
Definition py_str `{Library} (v : pyval) : string :=
  match v with
  | PyNone => "None"
  | PyBool true => "True"
  | PyBool false => "False"
  | PyInt z => NilZero.string_of_int (Z.to_int z)
  | PyFloat FNaN => "nan"
  | PyFloat (FNum q) => float_repr q
  | PyStr s => s
  end.

(** [float(v)] raises [OverflowError]: [v] is an int that rounds to no
    double, which is so from 2^1024 - 2^970 on in absolute value. *)
Definition float_overflows (v : pyval) : bool :=
  match v with
  | PyInt z => (2 ^ 1024 - 2 ^ 970 <=? Z.abs z)%Z
  | _ => false
  end.

(** [float(v)]; [None] when it raises: the [TypeError] or [ValueError] of
    the source's [except] clause, or the [OverflowError] of
    [float_overflows], which that clause does not catch. *)
Definition py_float `{Library} (v : pyval) : option pyfloat :=
  match v with
  | PyNone => None
  | PyBool b => Some (FNum (if b then 1%Q else 0%Q))
  | PyInt z => if float_overflows v then None else Some (FNum (inject_Z z))
  | PyFloat f => Some f
  | PyStr s => float_of_str s
  end.

(** The number in a numeric cell, if it holds one. *)
Definition num_of (v : pyval) : option Q :=
  match v with
  | PyBool b => Some (if b then 1%Q else 0%Q)
  | PyInt z => Some (inject_Z z)
  | PyFloat (FNum q) => Some q
  | _ => None
  end.

(** Element-wise [cell <= x] and [cell >= x] of a numeric column: a
    comparison with NaN on either side is false. *)
Definition cell_le (x : pyfloat) (v : pyval) : bool :=
  match num_of v, x with
  | Some a, FNum b => Qle_bool a b
  | _, _ => false
  end.

Definition cell_ge (x : Z) (v : pyval) : bool :=
  match num_of v with
  | Some a => Qle_bool (inject_Z x) a
  | None => false
  end.

(** ** Loading *)

(** [pd.to_numeric(column, errors="coerce")] on one cell: the number that
    the cell holds or spells, NaN when there is none. pandas stores the
    result as int64 when every cell of the column is an integer and as
    float64 otherwise; the model keeps the number and writes it as a
    float. *)
Definition to_numeric `{Library} (v : pyval) : pyfloat :=
  match v with
  | PyNone => FNaN
  | PyBool b => FNum (if b then 1%Q else 0%Q)
  | PyInt z => FNum (inject_Z z)
  | PyFloat f => f
  | PyStr s => parse_number s
  end.

(** [.fillna(0).astype(int)] on one cell: NaN becomes 0 and a number is
    truncated towards zero. This is the cast of pandas for a number
    strictly between -2^63 and 2^63 ([int64_range]); beyond, the cast
    wraps or raises. *)
Definition fillna0_astype_int (f : pyfloat) : Z :=
  match f with
  | FNaN => 0
  | FNum q => if Qle_bool 0%Q q then Qfloor q else Qceiling q
  end.

(** The numbers that [astype(int)] casts by truncation: strictly between
    -2^63 and 2^63 (NaN has been replaced by [fillna(0)] before the
    cast). *)
Definition int64_range (f : pyfloat) : bool :=
  match f with
  | FNaN => true
  | FNum q => negb (Qle_bool q (inject_Z (- 2 ^ 63)))
              && negb (Qle_bool (inject_Z (2 ^ 63)) q)
  end.

Definition bool_columns : list string :=
  ["section8_accepted"; "hud_approved"; "low_income_eligible";
   "nearby_transit"; "utilities_included"; "pets_allowed"].

(** [df[c] = f(df[c])]: reading the column raises when it is absent. *)
Definition assign_from (c : string) (f : pyval -> pyval) (df : DataFrame) : result DataFrame :=
  if has_column c df then Ok (map_column c f df) else Raise (KeyError c).

(** [HousingAI._load_data]; the argument is what [pd.read_csv] gave. *)
Definition _load_data `{Library} (read_csv : result DataFrame) : result DataFrame :=
  df ← read_csv;
  let df :=
    fold_left
      (fun df col =>
         if has_column col df
         then map_column col (fun v => PyBool (_parse_bool v)) df
         else df)
      bool_columns df in
  df ← assign_from "monthly_rent" (fun v => PyFloat (to_numeric v)) df;
  df ← assign_from "bedrooms" (fun v => PyInt (fillna0_astype_int (to_numeric v))) df;
  mret df.

(** ** Searching *)

(** [LANGUAGE_ALIASES], in the order of the source (a [dict] iterates in
    insertion order). *)
Definition LANGUAGE_ALIASES : list (string * string) :=
  [("english", "English");
   ("spanish", "Spanish");
   ("spanish/latin", "Spanish");
   ("chinese", "Chinese");
   ("mandarin", "Chinese");
   ("cantonese", "Chinese");
   ("korean", "Korean");
   ("vietnamese", "Vietnamese");
   ("arabic", "Arabic");
   ("hindi", "Hindi");
   ("gujarati", "Gujarati");
   ("french", "French");
   ("amharic", "Amharic");
   ("somali", "Somali");
   ("haitian creole", "Haitian Creole");
   ("creole", "Haitian Creole");
   ("russian", "Russian")].

(** [d.get(k, dflt)] on a dictionary of strings. *)
Fixpoint dict_get (d : list (string * string)) (k dflt : string) : string :=
  match d with
  | [] => dflt
  | (k', v) :: d' => if String.eqb k k' then v else dict_get d' k dflt
  end.

(** The keyword arguments of [HousingAI.search]; [None] is Python's. *)
Record search_args : Type := mkArgs {
  max_rent : option pyfloat;
  min_bedrooms : Z;
  city : option string;
  state : option string;
  zip_code : option string;
  language : option string;
  section8 : bool;
  hud_approved : bool;
  low_income_only : bool;
  needs_transit : bool;
  pets_allowed : bool;
  accessibility : bool;
  ami_percent : option Z;
  top_n : Z
}.

(** The defaults of the signature. *)
Definition default_args : search_args :=
  mkArgs None 0 None None None None false false false false false false None 10.

(** [if s:] on an optional string: [None] and [""] are both false. *)
Definition given (s : option string) : option string :=
  match s with
  | Some EmptyString => None
  | _ => s
  end.

(** [results["city"].str.lower() == city.strip().lower()] on one cell. *)
Definition city_test (c : string) (v : pyval) : bool :=
  match v with
  | PyStr s => String.eqb (PyStr.lower s) (PyStr.lower (PyStr.strip c))
  | _ => false
  end.

(** [results["state"].str.upper() == state.strip().upper()] on one cell. *)
Definition state_test (st : string) (v : pyval) : bool :=
  match v with
  | PyStr s => String.eqb (PyStr.upper s) (PyStr.upper (PyStr.strip st))
  | _ => false
  end.

(** [results["zip_code"].astype(str) == str(zip_code).strip()] on one cell. *)
Definition zip_test `{Library} (z : string) (v : pyval) : bool :=
  String.eqb (py_str v) (PyStr.strip z).

(** A cell of a boolean column used as a mask. *)
Definition flag_test (v : pyval) : bool :=
  match v with
  | PyBool b => b
  | _ => false
  end.

(** [notna() & (str.strip() != "None") & (str.strip() != "")] on one cell. *)
Definition accessibility_test (v : pyval) : bool :=
  match v with
  | PyStr s =>
      negb (String.eqb (PyStr.strip s) "None") && negb (String.eqb (PyStr.strip s) "")
  | _ => false
  end.

(** [str.contains(pat, case=False, na=False)] on one cell, for a compiled
    pattern. *)
Definition contains_test (found : string -> bool) (v : pyval) : bool :=
  match v with
  | PyStr s => found s
  | _ => false
  end.

(** [results[results[c].str.contains(pat, case=False, na=False)]]. *)
Definition select_contains `{Library} (c pat : string) (df : DataFrame) : result DataFrame :=
  if has_column c df then
    match re_search_ignorecase pat with
    | Some found => select c (contains_test found) df
    | None => Raise (ReError pat)
    end
  else Raise (KeyError c).

(** [if flag: results = results[results[c]]]. *)
Definition select_if (flag : bool) (c : string) (df : DataFrame) : result DataFrame :=
  if flag then select c flag_test df else Ok df.

(** The hard filters and the language filter of [HousingAI.search], in the
    order of the source. *)
Definition filtering `{Library} (a : search_args) (df : DataFrame) : result DataFrame :=
  let results := df in
  results ← match max_rent a with
            | Some r => select "monthly_rent" (cell_le r) results
            | None => Ok results
            end;
  results ← (if negb (min_bedrooms a =? 0)%Z
             then select "bedrooms" (cell_ge (min_bedrooms a)) results
             else Ok results);
  results ← match given (city a) with
            | Some c => select "city" (city_test c) results
            | None => Ok results
            end;
  results ← match given (state a) with
            | Some st => select "state" (state_test st) results
            | None => Ok results
            end;
  results ← match given (zip_code a) with
            | Some z => select "zip_code" (zip_test z) results
            | None => Ok results
            end;
  results ← select_if (section8 a) "section8_accepted" results;
  results ← select_if (hud_approved a) "hud_approved" results;
  results ← select_if (low_income_only a) "low_income_eligible" results;
  results ← select_if (needs_transit a) "nearby_transit" results;
  results ← select_if (pets_allowed a) "pets_allowed" results;
  results ← (if accessibility a
             then select "accessibility_features" accessibility_test results
             else Ok results);
  results ← match ami_percent a with
            | Some p => select "income_limit_percent_ami" (cell_le (FNum (inject_Z p))) results
            | None => Ok results
            end;
  results ← match given (language a) with
            | Some l =>
                let normalised := dict_get LANGUAGE_ALIASES (PyStr.lower l) l in
                select_contains "languages_spoken" normalised results
            | None => Ok results
            end;
  mret results.

(** ** Scoring *)

(** [row[k]]. *)
Definition getitem (r : row) (k : string) : result pyval :=
  match r !! k with
  | Some v => Ok v
  | None => Raise (KeyError k)
  end.

(** [max(0, x)]: the second argument wins only when it is greater. *)
Definition max0 (x : Q) : Q := if Qle_bool x 0 then 0%Q else x.

(** Rounding to the nearest integer, ties to even. *)
Definition round_half_even (x : Q) : Z :=
  let f := Qfloor x in
  let twice := Qfloor (2 * (x - inject_Z f)) in   (* 0 below the half, 1 from it on *)
  if (twice =? 0)%Z then f
  else if Qeq_bool (2 * (x - inject_Z f)) 1 then (if Z.even f then f else f + 1)%Z
  else (f + 1)%Z.

(** [round(x, 2)]. *)
Definition round2 (x : Q) : Q := (inject_Z (round_half_even (x * 100)) / 100)%Q.

(** [if row.get(k):]. *)
Definition get_truthy (r : row) (k : string) : bool :=
  match r !! k with
  | Some v => truthy v
  | None => false
  end.

(** [v in (None, "", "None", False, np.nan)] for [v = row.get(k)], by
    equality; a missing key reads [None], zero equals [False], and a NaN
    cell equals nothing. *)
Definition is_sentinel (v : option pyval) : bool :=
  match v with
  | None => true
  | Some PyNone => true
  | Some (PyStr s) => PyStr.in_strs s [""; "None"]
  | Some (PyBool b) => negb b
  | Some (PyInt z) => (z =? 0)%Z
  | Some (PyFloat (FNum q)) => Qeq_bool q 0
  | Some (PyFloat FNaN) => false
  end.

(** The affordability term that the [try] block adds: [max(0, 40 - rent /
    30)] when [float] returns, nothing when it raises a [TypeError] or a
    [ValueError]; [max(0, nan)] is [0]. *)
Definition affordability `{Library} (v : pyval) : Q :=
  match py_float v with
  | Some (FNum rent) => max0 (40 - rent / 30)
  | Some FNaN => 0
  | None => 0
  end.

(** The six bonuses. *)
Definition bonuses `{Library} (r : row) : Q :=
  ((if get_truthy r "low_income_eligible" then 15 else 0)
   + (if get_truthy r "section8_accepted" then 10 else 0)
   + (if get_truthy r "hud_approved" then 10 else 0)
   + (if get_truthy r "nearby_transit" then 5 else 0)
   + (if negb (is_sentinel (r !! "utilities_included")) then 5 else 0)
   + (let accessibility := default (PyStr "") (r !! "accessibility_features") in
      if truthy accessibility
         && negb (PyStr.in_strs (PyStr.strip (py_str accessibility)) ["None"; ""])
      then 5 else 0))%Q.

(** [HousingAI._score_listing]. The [except] clause catches [TypeError] and
    [ValueError] only: the [OverflowError] of [float] leaves the function. *)
Definition _score_listing `{Library} (r : row) : result Q :=
  rent ← getitem r "monthly_rent";
  if float_overflows rent then Raise OverflowError
  else
    let score := (0 + affordability rent)%Q in
    let score := (score + bonuses r)%Q in
    mret (round2 score).

(** The sort key: the number in the [score] cell. *)
Definition score_key (r : row) : Q :=
  match r !! "score" with
  | Some (PyFloat (FNum q)) => q
  | _ => 0%Q
  end.

(** [results["score"] = results.apply(score, axis=1)]. *)
Definition add_scores (score : row -> result Q) (df : DataFrame) : result DataFrame :=
  scored ← traverse
             (fun ir => s ← score ir.2;
                        mret (ir.1, <["score" := PyFloat (FNum s)]> ir.2))
             (rows df);
  mret (mkDF (if has_column "score" df then columns df else columns df ++ ["score"])
             scored).

(** [HousingAI.search], with the scoring function as an argument. *)
Definition search_with `{Library} (score : row -> result Q)
    (df : DataFrame) (a : search_args) : result DataFrame :=
  results ← filtering a df;
  if empty results then Ok results
  else
    results ← add_scores score results;
    let results := mkDF (columns results) (sort_values_desc score_key (rows results)) in
    mret (head (top_n a) results).

(** [HousingAI.search]. *)
Definition search `{Library} (df : DataFrame) (a : search_args) : result DataFrame :=
  search_with _score_listing df a.

(** ** Parsing a free-text query *)

(** [int(s)] on a string of decimal digits; anything else is rejected. *)
Fixpoint int_digits (acc : Z) (s : string) : result Z :=
  match s with
  | EmptyString => Ok acc
  | String c s' =>
      if PyStr.isdigit c
      then int_digits (10 * acc + Z.of_nat (nat_of_ascii c - 48))%Z s'
      else Raise (ValueError "int")
  end.

Definition py_int (s : string) : result Z :=
  match s with
  | EmptyString => Raise (ValueError "int")
  | _ => int_digits 0 s
  end.

(** [\b] after a word character: the text ends or goes on with a character
    that is not of [\w]. *)
Definition boundary_after (rest : string) : bool :=
  match rest with
  | EmptyString => true
  | String c _ => negb (PyStr.isword c)
  end.

(** [\b] before a word character: the text starts here or the character
    before is not of [\w]. *)
Definition boundary_before (prev : option ascii) : bool :=
  match prev with
  | None => true
  | Some c => negb (PyStr.isword c)
  end.

(** [k] digits at the head of [s], then [\b]. *)
Fixpoint digits_then_boundary (k : nat) (s : string) : option string :=
  match k with
  | O => if boundary_after s then Some EmptyString else None
  | S k' =>
      match s with
      | String c s' =>
          if PyStr.isdigit c
          then option_map (String c) (digits_then_boundary k' s')
          else None
      | EmptyString => None
      end
  end.

(** [(\d{3,4})\b] at the head of [s]: the greedier count is tried first. *)
Definition digits34 (s : string) : option string :=
  match digits_then_boundary 4 s with
  | Some g => Some g
  | None => digits_then_boundary 3 s
  end.

(** [\$?\b(\d{3,4})\b] matched at one position; [prev] is the character
    before it. With the dollar taken, [\b] holds as soon as a digit follows;
    without it, the digits must start a word. The rest of the pattern,
    [.*?(rent|month|budget|afford|per month)?], matches the empty string. *)
Definition rent_at (prev : option ascii) (s : string) : option string :=
  match s with
  | String "$"%char t => digits34 t
  | _ => if boundary_before prev then digits34 s else None
  end.

(** [re.search] for the rent pattern: group 1 of the leftmost match. *)
Fixpoint rent_search (prev : option ascii) (s : string) : option string :=
  match rent_at prev s with
  | Some g => Some g
  | None =>
      match s with
      | EmptyString => None
      | String c s' => rent_search (Some c) s'
      end
  end.

(** [s[2:]]. *)
Definition drop2 (s : string) : string :=
  match s with
  | String _ (String _ t) => t
  | _ => EmptyString
  end.

(** [(\d)\s*(?:bed(?:room)?s?|br\b)] matched at one position. *)
Definition bed_at (s : string) : option string :=
  match s with
  | String d t =>
      let t' := PyStr.lstrip t in
      if PyStr.isdigit d
         && (PyStr.startswith "bed" t'
             || (PyStr.startswith "br" t' && boundary_after (drop2 t')))
      then Some (String d EmptyString)
      else None
  | EmptyString => None
  end.

(** [re.search] for the bedroom pattern: group 1 of the leftmost match. *)
Fixpoint bed_search (s : string) : option string :=
  match bed_at s with
  | Some g => Some g
  | None =>
      match s with
      | EmptyString => None
      | String _ s' => bed_search s'
      end
  end.

Definition cities : list string :=
  ["atlanta"; "decatur"; "norcross"; "chamblee"; "sandy springs";
   "college park"; "brookhaven"; "jonesboro"].

(** [params[k] = True] when the test holds. *)
Definition set_flag (test : bool) (k : string) (params : row) : row :=
  if test then <[k := PyBool true]> params else params.

(** [HousingAI.parse_query]. *)
Definition parse_query (query : string) : result row :=
  let q := PyStr.lower query in
  let params : row := ∅ in
  params ← match rent_search None q with
           | Some g => n ← py_int g; mret (<["max_rent" := PyInt n]> params)
           | None => mret params
           end;
  params ← match bed_search q with
           | Some g => n ← py_int g; mret (<["min_bedrooms" := PyInt n]> params)
           | None => mret params
           end;
  let params :=
    match List.find (fun c => PyStr.contains c q) cities with
    | Some c => <["city" := PyStr (PyStr.title c)]> params
    | None => params
    end in
  let params :=
    if PyStr.contains " ga " q || PyStr.contains "georgia" q || PyStr.endswith " ga" q
    then <["state" := PyStr "GA"]> params else params in
  let params :=
    set_flag (PyStr.contains "section 8" q || PyStr.contains "section8" q
              || PyStr.contains "voucher" q) "section8" params in
  let params := set_flag (PyStr.contains "hud" q) "hud_approved" params in
  let params :=
    set_flag (PyStr.any_in ["low income"; "low-income"; "affordable"; "cheap"; "subsidized"] q)
             "low_income_only" params in
  let params :=
    set_flag (PyStr.any_in ["transit"; "bus"; "marta"; "train"; "public transport"] q)
             "needs_transit" params in
  let params :=
    set_flag (PyStr.contains "pet" q || PyStr.contains "dog" q || PyStr.contains "cat" q)
             "pets_allowed" params in
  let params :=
    set_flag (PyStr.any_in ["wheelchair"; "accessible"; "accessibility";
                            "disability"; "disabled"] q)
             "accessibility" params in
  let params :=
    match List.find (fun kv => PyStr.contains kv.1 q) LANGUAGE_ALIASES with
    | Some kv => <["language" := PyStr kv.2]> params
    | None => params
    end in
  mret params.

(** ** Answering a query *)

(** The call of [search] with [params] unpacked as keyword arguments, absent
    keys taking the defaults of the signature. *)
Definition kwargs (params : row) : search_args :=
  let str k := match params !! k with Some (PyStr s) => Some s | _ => None end in
  let flag k := match params !! k with Some (PyBool b) => b | _ => false end in
  {| max_rent := match params !! "max_rent" with
                 | Some (PyInt z) => Some (FNum (inject_Z z))
                 | Some (PyFloat f) => Some f
                 | _ => None
                 end;
     min_bedrooms := match params !! "min_bedrooms" with Some (PyInt z) => z | _ => 0%Z end;
     city := str "city";
     state := str "state";
     zip_code := str "zip_code";
     language := str "language";
     section8 := flag "section8";
     hud_approved := flag "hud_approved";
     low_income_only := flag "low_income_only";
     needs_transit := flag "needs_transit";
     pets_allowed := flag "pets_allowed";
     accessibility := flag "accessibility";
     ami_percent := match params !! "ami_percent" with Some (PyInt z) => Some z | _ => None end;
     top_n := match params !! "top_n" with Some (PyInt z) => z | _ => 10%Z end |}.

Definition newline : string := String (ascii_of_nat 10) EmptyString.

(** The summary of a search without results. *)
Definition no_match_summary : string :=
  "I'm sorry, I couldn't find any listings that match your criteria. "
  ++ "Try broadening your search — for example, increase your budget or "
  ++ "expand to nearby cities.".

(** [sep.join(lines)]. *)
Fixpoint join (sep : string) (lines : list string) : string :=
  match lines with
  | [] => EmptyString
  | [l] => l
  | l :: ls => l ++ sep ++ join sep ls
  end.

(** [int(v)] on a cell. *)
Definition int_of_cell (v : pyval) : result Z :=
  match v with
  | PyBool b => Ok (if b then 1 else 0)%Z
  | PyInt z => Ok z
  | PyFloat (FNum q) => Ok (fillna0_astype_int (FNum q))
  | PyStr s => py_int s
  | _ => Raise (ValueError "int")
  end.

(** The format [,.0f] applied to a cell. *)
Definition format_rent `{Library} (v : pyval) : result string :=
  match v with
  | PyInt z => Ok (format_thousands (FNum (inject_Z z)))
  | PyFloat f => Ok (format_thousands f)
  | _ => Raise (ValueError "format")
  end.

(** One line of the summary. *)
Definition summary_line `{Library} (r : row) : result string :=
  address ← getitem r "address";
  cty ← getitem r "city";
  st ← getitem r "state";
  rent ← getitem r "monthly_rent";
  rent ← format_rent rent;
  beds ← getitem r "bedrooms";
  beds ← int_of_cell beds;
  s8 ← getitem r "section8_accepted";
  name ← getitem r "agent_name";
  phone ← getitem r "agent_phone";
  mret ("• " ++ py_str address ++ ", " ++ py_str cty ++ ", " ++ py_str st
        ++ " — $" ++ rent ++ "/mo | "
        ++ NilZero.string_of_int (Z.to_int beds) ++ " bed | "
        ++ "Section 8: " ++ (if truthy s8 then "✓" else "✗") ++ " | "
        ++ "Agent: " ++ py_str name ++ " (" ++ py_str phone ++ ")").

Record answer : Type := mkAnswer {
  params : row;
  results : DataFrame;
  summary : string
}.

(** [HousingAI.answer_query]. *)
Definition answer_query `{Library} (df : DataFrame) (query : string) (n : Z) : result answer :=
  params ← parse_query query;
  let params := <["top_n" := PyInt n]> params in
  results ← search df (kwargs params);
  summary ←
    (if empty results then Ok no_match_summary
     else
       lines ← traverse (fun ir => summary_line ir.2) (rows results);
       mret (join newline
               (("I found " ++ NilZero.string_of_uint (Nat.to_uint (length (rows results)))
                 ++ " listing(s) that match your needs:" ++ newline) :: lines)));
  mret (mkAnswer params results summary).

(* ===================================================================== *)
(** * agent_caller.py *)
(* ===================================================================== *)

(** [GREETINGS]: a format string is the function of its named fields. *)
Definition GREETINGS : list (string * (string -> string -> string -> string -> string)) :=
  [
  ("English",
   fun user_name address rent user_phone =>
      "Hello, my name is Alex, a virtual housing assistant. I am calling on behalf of "
      ++ user_name
      ++ " who is looking for affordable housing. They are interested in the property at "
      ++ address
      ++ " listed at $"
      ++ rent
      ++ "/month. Could you please provide more information or schedule a viewing? Their contact number is "
      ++ user_phone
      ++ ". Thank you.");
  ("Spanish",
   fun user_name address rent user_phone =>
      "Hola, me llamo Alex, soy un asistente virtual de vivienda. Llamo en nombre de "
      ++ user_name
      ++ ", quien busca vivienda asequible. Está interesado/a en la propiedad en "
      ++ address
      ++ " listada a $"
      ++ rent
      ++ "/mes. ¿Podría proporcionarme más información o programar una visita? Su número de contacto es "
      ++ user_phone
      ++ ". Gracias.");
  ("French",
   fun user_name address rent user_phone =>
      "Bonjour, je m'appelle Alex, assistant virtuel en immobilier. J'appelle au nom de "
      ++ user_name
      ++ " qui recherche un logement abordable. Il/Elle est intéressé(e) par le bien au "
      ++ address
      ++ " affiché à $"
      ++ rent
      ++ "/mois. Pourriez-vous fournir plus d'informations ou planifier une visite? Son numéro de contact est "
      ++ user_phone
      ++ ". Merci.");
  ("Amharic",
   fun user_name address rent user_phone =>
      "ሰላም፣ ስሜ አሌክስ ነው፣ ምናባዊ የቤቶች ረዳት ነኝ። በ"
      ++ user_name
      ++ " ስም እደውልሃለሁ፣ ተመጣጣኝ ቤት እየፈለጉ ነው። በ"
      ++ address
      ++ " ያለውን ቤት $"
      ++ rent
      ++ "/ወር ፍላጎት አላቸው። ተጨማሪ መረጃ ወይም ጉብኝት ማዘጋጀት ይችላሉ? የእርሳቸው ስልክ ቁጥር "
      ++ user_phone
      ++ " ነው። አስቀድሜ አመሰግናለሁ።")
  ].

(** [EMAIL_SUBJECTS]. *)
Definition EMAIL_SUBJECTS : list (string * (string -> string)) :=
  [
  ("English",
   fun address =>
      "Affordable Housing Inquiry — "
      ++ address);
  ("Spanish",
   fun address =>
      "Consulta sobre vivienda asequible — "
      ++ address);
  ("French",
   fun address =>
      "Demande de logement abordable — "
      ++ address);
  ("Amharic",
   fun address =>
      "ተመጣጣኝ ቤት ጥያቄ — "
      ++ address)
  ].

(** [EMAIL_BODIES]. *)
Definition EMAIL_BODIES : list (string * (string -> string -> string -> string -> string -> string -> string -> string -> string)) :=
  [
  ("English",
   fun agent_name user_name address city state rent user_phone user_email =>
      "Dear "
      ++ agent_name
      ++ ","
      ++ newline
      ++ newline
      ++ "My name is "
      ++ user_name
      ++ " and I am looking for affordable housing. I found your listing at "
      ++ address
      ++ ", "
      ++ city
      ++ ", "
      ++ state
      ++ " for $"
      ++ rent
      ++ "/month and I am very interested."
      ++ newline
      ++ newline
      ++ "Could you please contact me at "
      ++ user_phone
      ++ " or "
      ++ user_email
      ++ " to discuss availability and schedule a viewing?"
      ++ newline
      ++ newline
      ++ "Thank you for your time."
      ++ newline
      ++ newline
      ++ "Best regards,"
      ++ newline
      ++ user_name);
  ("Spanish",
   fun agent_name user_name address city state rent user_phone user_email =>
      "Estimado/a "
      ++ agent_name
      ++ ","
      ++ newline
      ++ newline
      ++ "Me llamo "
      ++ user_name
      ++ " y estoy buscando vivienda asequible. Encontré su propiedad en "
      ++ address
      ++ ", "
      ++ city
      ++ ", "
      ++ state
      ++ " por $"
      ++ rent
      ++ "/mes y estoy muy interesado/a."
      ++ newline
      ++ newline
      ++ "¿Podría contactarme en "
      ++ user_phone
      ++ " o "
      ++ user_email
      ++ " para hablar sobre disponibilidad y coordinar una visita?"
      ++ newline
      ++ newline
      ++ "Gracias por su tiempo."
      ++ newline
      ++ newline
      ++ "Atentamente,"
      ++ newline
      ++ user_name)
  ].

(** [d.get(k, d["English"])] on a table of templates. *)
Fixpoint template_get {T : Type} (d : list (string * T)) (k : string) (dflt : T) : T :=
  match d with
  | [] => dflt
  | (k', v) :: d' => if String.eqb k k' then v else template_get d' k dflt
  end.

(** The instance attributes of [AgentCaller]. *)
Record AgentCaller : Type := mkCaller {
  twilio_sid : string;
  twilio_token : string;
  twilio_phone : string;
  smtp_host : string;
  smtp_port : Z;
  smtp_user : string;
  smtp_password : string
}.

(** The services behind the transports. *)
Class Network : Type := {
  (** Whether [import twilio] succeeded. *)
  _TWILIO_AVAILABLE : bool;
  (** [client.calls.create(twiml=, to=, from_=)]: the sid of the call, or
      the text of the exception. *)
  calls_create : AgentCaller -> string -> string -> string -> string + string;
  (** [client.messages.create(body=, from_=, to=)]. *)
  messages_create : AgentCaller -> string -> string -> string -> string + string;
  (** The SMTP session of [send_email] (sender, recipient, subject, body):
      [None] when the mail went out, or the text of the exception. *)
  smtp_session : AgentCaller -> string -> string -> string -> string -> option string
}.

(** [{"success": False, "error": msg}]. *)
Definition failure (msg : string) : row :=
  <["error" := PyStr msg]> (<["success" := PyBool false]> ∅).

(** [{"success": True, "sid": sid}]. *)
Definition success_sid (sid : string) : row :=
  <["sid" := PyStr sid]> (<["success" := PyBool true]> ∅).

(** [a or b] on strings. *)
Definition str_or (a b : string) : string :=
  match a with
  | EmptyString => b
  | _ => a
  end.

Definition nonempty (s : string) : bool := negb (String.eqb s "").

(** [listing.get(k, dflt)]. *)
Definition listing_get (listing : row) (k : string) (dflt : pyval) : pyval :=
  default dflt (listing !! k).

(** [AgentCaller.build_call_script]. *)
Definition build_call_script `{Library} (listing : row)
    (user_name user_phone preferred_language : string) : string :=
  let template :=
    template_get GREETINGS preferred_language
      (template_get GREETINGS "English" (fun _ _ _ _ => EmptyString)) in
  template user_name
           (py_str (listing_get listing "address" (PyStr "the listed property")))
           (py_str (listing_get listing "monthly_rent" (PyStr "N/A")))
           user_phone.

(** [AgentCaller.build_email]: the subject and the body. *)
Definition build_email `{Library} (listing : row)
    (user_name user_phone user_email preferred_language : string) : string * string :=
  let subject_template :=
    template_get EMAIL_SUBJECTS preferred_language
      (template_get EMAIL_SUBJECTS "English" (fun _ => EmptyString)) in
  let body_template :=
    template_get EMAIL_BODIES preferred_language
      (template_get EMAIL_BODIES "English" (fun _ _ _ _ _ _ _ _ => EmptyString)) in
  let agent_name := py_str (listing_get listing "agent_name" (PyStr "Agent")) in
  let address := py_str (listing_get listing "address" (PyStr "the listed property")) in
  let city := py_str (listing_get listing "city" (PyStr "")) in
  let state := py_str (listing_get listing "state" (PyStr "")) in
  let rent := py_str (listing_get listing "monthly_rent" (PyStr "N/A")) in
  (subject_template address,
   body_template agent_name user_name address city state rent user_phone user_email).

(** [AgentCaller.call_agent]. *)
Definition call_agent `{Network} (self : AgentCaller)
    (agent_phone script : string) (from_number : option string) : row :=
  if negb _TWILIO_AVAILABLE then failure "Twilio not available."
  else if negb (nonempty (twilio_sid self) && nonempty (twilio_token self)
                && nonempty (twilio_phone self))
  then failure ("Twilio credentials not configured. "
                ++ "Set TWILIO_ACCOUNT_SID, TWILIO_AUTH_TOKEN, "
                ++ "TWILIO_PHONE_NUMBER environment variables.")
  else
    let twiml := "<Response><Say>" ++ script ++ "</Say>"
                 ++ "<Pause length='2'/>"
                 ++ "<Say>Goodbye.</Say></Response>" in
    match calls_create self twiml agent_phone
            (str_or (default EmptyString from_number) (twilio_phone self)) with
    | inl sid => success_sid sid
    | inr exc => failure exc
    end.

(** [AgentCaller.send_sms]. *)
Definition send_sms `{Network} (self : AgentCaller)
    (agent_phone message : string) (from_number : option string) : row :=
  if negb _TWILIO_AVAILABLE then failure "Twilio not available."
  else if negb (nonempty (twilio_sid self) && nonempty (twilio_token self)
                && nonempty (twilio_phone self))
  then failure "Twilio credentials not configured."
  else
    match messages_create self (PyStr.take 1600 message)
            (str_or (default EmptyString from_number) (twilio_phone self))
            agent_phone with
    | inl sid => success_sid sid
    | inr exc => failure exc
    end.

(** [AgentCaller.send_email]. *)
Definition send_email `{Network} (self : AgentCaller)
    (to_address subject body : string) (from_address : option string) : row :=
  let sender := str_or (default EmptyString from_address) (smtp_user self) in
  if negb (nonempty (smtp_host self) && nonempty sender && nonempty (smtp_password self))
  then failure ("SMTP credentials not configured. "
                ++ "Set SMTP_HOST, SMTP_USER, SMTP_PASSWORD environment variables.")
  else
    match smtp_session self sender to_address subject body with
    | None => <["success" := PyBool true]> ∅
    | Some exc => failure exc
    end.

(** A transport method entered, with its arguments. *)
Inductive transport : Type :=
| CallAgent (agent_phone script : string)
| SendSms (agent_phone message : string)
| SendEmail (to_address subject body : string).

(** A value together with the transports entered on the way to it. *)
Definition traced (A : Type) : Type := list transport * A.

Definition invoke {A : Type} (t : transport) (a : A) : traced A := ([t], a).
Definition untraced {A : Type} (a : A) : traced A := ([], a).

(** [AgentCaller.contact_agent_for_listing]. *)
Definition contact_agent_for_listing `{Library} `{Network} (self : AgentCaller)
    (listing : row) (user_name user_phone user_email preferred_language method : string)
    : traced row :=
  let agent_phone := listing_get listing "agent_phone" (PyStr "") in
  let agent_email := listing_get listing "agent_email" (PyStr "") in
  if String.eqb method "call" then
    let script := build_call_script listing user_name user_phone preferred_language in
    invoke (CallAgent (py_str agent_phone) script)
           (call_agent self (py_str agent_phone) script None)
  else if String.eqb method "sms" then
    let script := build_call_script listing user_name user_phone preferred_language in
    invoke (SendSms (py_str agent_phone) (PyStr.take 1600 script))
           (send_sms self (py_str agent_phone) (PyStr.take 1600 script) None)
  else
    if negb (truthy agent_email)
    then untraced (failure "No agent email for this listing.")
    else
      let email := build_email listing user_name user_phone user_email preferred_language in
      invoke (SendEmail (py_str agent_email) email.1 email.2)
             (send_email self (py_str agent_email) email.1 email.2 None).

(* ===================================================================== *)
(** * Notions used to state the properties *)
(* ===================================================================== *)

(** One of "yes", "true", "1" in any casing, padded with white space. *)
Definition yes_string (s : string) : Prop :=
  exists pre core post,
    s = pre ++ core ++ post
    /\ PyStr.allspace pre = true /\ PyStr.allspace post = true
    /\ In (PyStr.lower core) ["yes"; "true"; "1"].


(** A filter as data: what it needs of the column labels (the exception it
    raises otherwise) and the rows it keeps. *)
Record row_filter : Type := mkFilter {
  guard : list string -> option exn;
  keep : row -> bool
}.

Definition run_filter (f : row_filter) (df : DataFrame) : result DataFrame :=
  match guard f (columns df) with
  | Some e => Raise e
  | None => Ok (mkDF (columns df) (List.filter (fun ir => keep f ir.2) (rows df)))
  end.

Fixpoint run_filters (fs : list row_filter) (df : DataFrame) : result DataFrame :=
  match fs with
  | [] => Ok df
  | f :: fs' => df' ← run_filter f df; run_filters fs' df'
  end.

(** [select c test] as a filter. *)
Definition on_column (c : string) (test : pyval -> bool) : row_filter :=
  mkFilter (fun cols => if PyStr.in_strs c cols then None else Some (KeyError c))
           (fun r => test (cell c r)).

(** [select_contains c pat] as a filter. *)
Definition on_pattern `{Library} (c pat : string) : row_filter :=
  mkFilter (fun cols =>
              if PyStr.in_strs c cols then
                match re_search_ignorecase pat with
                | Some _ => None
                | None => Some (ReError pat)
                end
              else Some (KeyError c))
           (fun r =>
              match re_search_ignorecase pat with
              | Some found => contains_test found (cell c r)
              | None => false
              end).

(** The filters that a call of [search] activates, in the order of the
    source. *)
Definition active_filters `{Library} (a : search_args) : list row_filter :=
  match max_rent a with Some r => [on_column "monthly_rent" (cell_le r)] | None => [] end
  ++ (if negb (min_bedrooms a =? 0)%Z
      then [on_column "bedrooms" (cell_ge (min_bedrooms a))] else [])
  ++ match given (city a) with Some c => [on_column "city" (city_test c)] | None => [] end
  ++ match given (state a) with Some st => [on_column "state" (state_test st)] | None => [] end
  ++ match given (zip_code a) with Some z => [on_column "zip_code" (zip_test z)] | None => [] end
  ++ (if section8 a then [on_column "section8_accepted" flag_test] else [])
  ++ (if hud_approved a then [on_column "hud_approved" flag_test] else [])
  ++ (if low_income_only a then [on_column "low_income_eligible" flag_test] else [])
  ++ (if needs_transit a then [on_column "nearby_transit" flag_test] else [])
  ++ (if pets_allowed a then [on_column "pets_allowed" flag_test] else [])
  ++ (if accessibility a
      then [on_column "accessibility_features" accessibility_test] else [])
  ++ match ami_percent a with
     | Some p => [on_column "income_limit_percent_ami" (cell_le (FNum (inject_Z p)))]
     | None => []
     end
  ++ match given (language a) with
     | Some l => [on_pattern "languages_spoken"
                    (dict_get LANGUAGE_ALIASES (PyStr.lower l) l)]
     | None => []
     end.

(** The same call with another [language]. *)
Definition with_language (l : option string) (a : search_args) : search_args :=
  mkArgs (max_rent a) (min_bedrooms a) (city a) (state a) (zip_code a) l
         (section8 a) (hud_approved a) (low_income_only a) (needs_transit a)
         (pets_allowed a) (accessibility a) (ami_percent a) (top_n a).

(** A listing's rent is missing or not negative: what [float] reads off
    the cell, when it reads a number, is at least zero. *)
Definition rent_not_negative `{Library} (v : pyval) : Prop :=
  forall q, py_float v = Some (FNum q) -> (0 <= q)%Q.

(** ** Libraries to run the model with *)

(** Insertion into a list in descending order of the key, in front of the
    rows of equal key. *)
Fixpoint insert_desc (key : row -> Q) (x : nat * row)
    (l : list (nat * row)) : list (nat * row) :=
  match l with
  | [] => [x]
  | y :: l' =>
      if negb (Qle_bool (key y.2) (key x.2))
      then y :: insert_desc key x l'
      else x :: l
  end.

(** Insertion sort from the right. *)
Definition insertion_sort_desc (key : row -> Q)
    (l : list (nat * row)) : list (nat * row) :=
  fold_right (insert_desc key) [] l.

(** A library with a literal, case-insensitive pattern search and no
    number parsing or rendering, around an insertion sort. *)
Definition sample_library : Library :=
  {| parse_number := fun _ => FNaN;
     float_of_str := fun _ => None;
     float_repr := fun _ => "0.0";
     format_thousands := fun _ => "0";
     re_search_ignorecase :=
       fun pat => Some (fun s => PyStr.contains (PyStr.lower pat) (PyStr.lower s));
     sort_values_desc := insertion_sort_desc |}.

(** A network without Twilio and with a failing SMTP server. *)
Definition offline_network : Network :=
  {| _TWILIO_AVAILABLE := false;
     calls_create := fun _ _ _ _ => inr "unreachable";
     messages_create := fun _ _ _ _ => inr "unreachable";
     smtp_session := fun _ _ _ _ _ => Some "unreachable" |}.

(** Sample data. *)
Definition sample_row (rent : Q) (beds : Z) (s8 : bool) (langs : string) : row :=
  list_to_map
    [("address", PyStr "12 Elm St"); ("city", PyStr "Atlanta"); ("state", PyStr "GA");
     ("monthly_rent", PyFloat (FNum rent)); ("bedrooms", PyInt beds);
     ("agent_name", PyStr "Maria"); ("agent_phone", PyStr "555"); ("agent_email", PyStr "");
     ("languages_spoken", PyStr langs); ("section8_accepted", PyBool s8)].

Definition sample_columns : list string :=
  ["address"; "city"; "state"; "monthly_rent"; "bedrooms"; "agent_name";
   "agent_phone"; "agent_email"; "languages_spoken"; "section8_accepted"].

Definition sample_frame : DataFrame :=
  mkDF sample_columns
       [(0%nat, sample_row 900 2 true "English, Spanish");
        (1%nat, sample_row 900 2 true "English, Chinese");
        (2%nat, sample_row 600 1 false "Chinese")].

Definition sample_caller : AgentCaller :=
  mkCaller "" "" "" "smtp.gmail.com" 587 "" "".

(** The conjunction of the tests of a list of filters on one row. *)
Definition keep_all (fs : list row_filter) (ir : nat * row) : bool :=
  forallb (fun f => keep f ir.2) fs.

(** [jr] is [ir] with its score written into the [score] cell. *)
Definition scored_from (score : row -> result Q) (ir jr : nat * row) : Prop :=
  exists s, score ir.2 = Ok s /\ jr = (ir.1, <["score" := PyFloat (FNum s)]> ir.2).

(** Sample calls. *)
Definition rent_700 : search_args :=
  mkArgs (Some (FNum 700)) 0 None None None None
         false false false false false false None 10.

Definition rent_and_section8 : search_args :=
  mkArgs (Some (FNum 950)) 0 None None None None
         true false false false false false None 10.

(** Sample listings. *)
Definition cheap_row : row := sample_row 0 1 true "English".

(** A free listing with every bonus. *)
Definition best_row : row :=
  list_to_map
    [("monthly_rent", PyFloat (FNum 0)); ("low_income_eligible", PyBool true);
     ("section8_accepted", PyBool true); ("hud_approved", PyBool true);
     ("nearby_transit", PyBool true); ("utilities_included", PyBool true);
     ("accessibility_features", PyStr "Ramp")].


(** Three listings with the scores 10, 30 and 20. *)
Definition mixed_frame : DataFrame :=
  mkDF sample_columns
       [(0%nat, sample_row 900 2 false "English");
        (1%nat, sample_row 600 1 true "English, Spanish");
        (2%nat, sample_row 900 3 true "Chinese")].

(** A call that asks for HUD approval only. *)
Definition hud_only : search_args :=
  mkArgs None 0 None None None None
         false true false false false false None 10.

Definition negative_rent_row : row :=
  list_to_map
    [("monthly_rent", PyFloat (FNum (-300))); ("low_income_eligible", PyBool true);
     ("section8_accepted", PyBool true); ("hud_approved", PyBool true);
     ("nearby_transit", PyBool true); ("utilities_included", PyBool true);
     ("accessibility_features", PyStr "Ramp")].

(** Every key of the dictionary is one of [ks]. *)
Definition keys_within (ks : list string) (m : row) : Prop :=
  forall k, is_Some (m !! k) -> In k ks.

(** The keys that [parse_query] may set. *)
Definition query_keys : list string :=
  ["max_rent"; "min_bedrooms"; "city"; "state"; "section8"; "hud_approved";
   "low_income_only"; "needs_transit"; "pets_allowed"; "accessibility"; "language"].

(** Every character is a decimal digit. *)
Fixpoint alldigits (s : string) : bool :=
  match s with
  | EmptyString => true
  | String c s' => PyStr.isdigit c && alldigits s'
  end.

(** ** Further notions and samples *)

(** A call with two bedrooms or more, in Atlanta, with Section 8. *)
Definition two_beds_atlanta_s8 : search_args :=
  mkArgs None 2 (Some " ATLANTA ") None None None
         true false false false false false None 10.

(** The data frame that [_load_data] makes of [sample_frame]. *)
Definition loaded_sample : DataFrame :=
  match @_load_data sample_library (Ok sample_frame) with
  | Ok df => df
  | Raise _ => sample_frame
  end.

(** What [_load_data] does to one row of a frame with the column labels
    [cols]. *)
Definition load_row `{Library} (cols : list string) (r : row) : row :=
  let r :=
    fold_left
      (fun r col =>
         if PyStr.in_strs col cols
         then <[col := PyBool (_parse_bool (cell col r))]> r
         else r)
      bool_columns r in
  let r := <["monthly_rent" := PyFloat (to_numeric (cell "monthly_rent" r))]> r in
  <["bedrooms" := PyInt (fillna0_astype_int (to_numeric (cell "bedrooms" r)))]> r.

(** The rows of a frame that pass every filter of a call, in frame order. *)
Definition matching_rows `{Library} (a : search_args) (df : DataFrame) : list (nat * row) :=
  List.filter (keep_all (active_filters a)) (rows df).

(** A call that keeps the two best rows. *)
Definition top_two : search_args :=
  mkArgs None 0 None None None None
         false false false false false false None 2.

(** The keys that [parse_query] sets to [True]. *)
Definition flag_keys : list string :=
  ["section8"; "hud_approved"; "low_income_only"; "needs_transit"; "pets_allowed";
   "accessibility"].

(** The first line of the summary of [k] results. *)
Definition found_header (k : nat) : string :=
  "I found " ++ NilZero.string_of_uint (Nat.to_uint k)
  ++ " listing(s) that match your needs:" ++ newline.

(** A transport result: [success] is a boolean, and an [error] text comes
    with failure and only with it. *)
Definition structured_result (d : row) : Prop :=
  (d !! "success" = Some (PyBool true) /\ d !! "error" = None)
  \/ (d !! "success" = Some (PyBool false) /\ exists msg, d !! "error" = Some (PyStr msg)).

(** The languages with a call script, and with a subject line. *)
Definition script_languages : list string := ["English"; "Spanish"; "French"; "Amharic"].

(** A caller with every credential set. *)
Definition configured_caller : AgentCaller :=
  mkCaller "AC1" "token" "+15550000000" "smtp.gmail.com" 587 "me@example.com" "secret".

(* ===================================================================== *)
(** * chatbot.py *)
(* ===================================================================== *)

(** The string of the given bytes. *)
Definition of_bytes (l : list nat) : string :=
  fold_right (fun n s => String (ascii_of_nat n) s) EmptyString l.

(** [WELCOME_MESSAGE], byte for byte as the source file has it. *)
Definition WELCOME_MESSAGE : string :=
  "Welcome to the Real Estate AI Assistant! I help immigrants and minorities find affordable housing in your area. You can ask me things like:"
  ++ of_bytes [10]
  ++ "  "
  ++ of_bytes [195; 162; 226; 130; 172; 194; 162]
  ++ " 'Find 2-bedroom apartments under $800 in Atlanta'"
  ++ of_bytes [10]
  ++ "  "
  ++ of_bytes [195; 162; 226; 130; 172; 194; 162]
  ++ " 'Show me Section 8 housing in Decatur'"
  ++ of_bytes [10]
  ++ "  "
  ++ of_bytes [195; 162; 226; 130; 172; 194; 162]
  ++ " 'I need wheelchair-accessible housing with Spanish-speaking agents'"
  ++ of_bytes [10]
  ++ "  "
  ++ of_bytes [195; 162; 226; 130; 172; 194; 162]
  ++ " 'Contact agent for listing 1'"
  ++ of_bytes [10; 10]
  ++ "Type 'quit' or say 'exit' to leave."
  ++ of_bytes [10].

(** The reply to an exit word. *)
Definition goodbye_reply : string :=
  "Goodbye! Good luck with your housing search. "
  ++ of_bytes [196; 159; 197; 184; 194; 160].

Definition not_caught_reply : string := "I didn't catch that. Could you please repeat?".

Definition search_first_reply : string :=
  "Please search for a listing first, then say 'contact agent' "
  ++ "to reach out about a specific property.".

(** The conversation state of a [Chatbot]: the results of the last search,
    [None] before the first one. *)
Record Chatbot : Type := mkChatbot {
  _last_results : option DataFrame
}.

(** The reply that offers the agent of a listing. *)
Definition contact_offer `{Library} (listing : row) : result string :=
  name ← getitem listing "agent_name";
  phone ← getitem listing "agent_phone";
  email ← getitem listing "agent_email";
  address ← getitem listing "address";
  mret ("I can contact " ++ py_str name ++ " at " ++ py_str phone
        ++ " or " ++ py_str email ++ " about " ++ py_str address ++ "."
        ++ newline ++ newline
        ++ "To proceed, use the /contact endpoint on the web app, or call "
        ++ py_str phone ++ " directly.").

(** [Chatbot._handle_contact_request]: [iloc[0]] is the first row. *)
Definition _handle_contact_request `{Library} (self : Chatbot) (text : string)
    : result string :=
  match _last_results self with
  | None => Ok search_first_reply
  | Some res =>
      if empty res then Ok search_first_reply
      else
        match rows res with
        | (_, listing) :: _ => contact_offer listing
        | [] => Ok search_first_reply
        end
  end.

(** [Chatbot.process_turn]: the new state and the reply; [df] is the
    dataset of [self.ai]. *)
Definition process_turn `{Library} (df : DataFrame) (self : Chatbot) (user_input : string)
    : result (Chatbot * string) :=
  let text := PyStr.strip user_input in
  if String.eqb text "" then Ok (self, not_caught_reply)
  else
    let lower := PyStr.lower text in
    if PyStr.in_strs lower ["quit"; "exit"; "bye"; "goodbye"]
    then Ok (self, goodbye_reply)
    else if PyStr.startswith "contact" lower
            || PyStr.contains "call agent" lower
            || PyStr.contains "email agent" lower
    then reply ← _handle_contact_request self text; mret (self, reply)
    else if PyStr.in_strs lower ["help"; "?"; "what can you do"]
    then Ok (self, WELCOME_MESSAGE)
    else
      response ← answer_query df text 5;
      mret (mkChatbot (Some (results response)), summary response).

(** The words that end the conversation. *)
Definition exit_words : list string := ["quit"; "exit"; "bye"; "goodbye"].

(** ** The price range of the dataset (housing_ai.py) *)

(** [min] and [max] of two numbers. *)
Definition qmin (a b : Q) : Q := if Qle_bool a b then a else b.
Definition qmax (a b : Q) : Q := if Qle_bool a b then b else a.

(** [df["monthly_rent"].dropna()] on a loaded frame: the numbers of the
    column, in row order. *)
Definition rents (df : DataFrame) : list Q :=
  flat_map (fun ir => match num_of (cell "monthly_rent" ir.2) with
                      | Some q => [q]
                      | None => []
                      end)
           (rows df).

(** [HousingAI.get_price_range]: [min] and [max] of an empty column are
    NaN. *)
Definition get_price_range (df : DataFrame) : result (pyfloat * pyfloat) :=
  if has_column "monthly_rent" df then
    match rents df with
    | [] => Ok (FNaN, FNaN)
    | q :: qs => Ok (FNum (fold_left qmin qs q), FNum (fold_left qmax qs q))
    end
  else Raise (KeyError "monthly_rent").

(* ===================================================================== *)
(** * Properties *)
(* ===================================================================== *)

Module PyStrFacts.
Import PyStr.

Lemma append_cons c a b : String c a ++ b = String c (a ++ b).
Proof. reflexivity. Qed.

Lemma isspace_lower_char c : isspace (lower_char c) = isspace c.
Proof. destruct c as [[] [] [] [] [] [] [] []]; reflexivity. Qed.

Lemma has_space_lower s : has_space (lower s) = has_space s.
Proof.
  unfold lower. induction s as [|c s IH]; simpl; [reflexivity|].
  now rewrite isspace_lower_char, IH.
Qed.

Lemma lstrip_app_space pre t : allspace pre = true -> lstrip (pre ++ t) = lstrip t.
Proof.
  induction pre as [|c pre IH]; simpl; [reflexivity|].
  intros [Hc Hp]%andb_prop. rewrite Hc. auto.
Qed.

Lemma rstrip_allspace post : allspace post = true -> rstrip post = "".
Proof.
  induction post as [|c post IH]; simpl; [reflexivity|].
  intros [Hc Hp]%andb_prop. rewrite (IH Hp), Hc. reflexivity.
Qed.

Lemma rstrip_app_space t post : allspace post = true -> rstrip (t ++ post) = rstrip t.
Proof.
  intros Hp. induction t as [|c t IH]; simpl.
  - now apply rstrip_allspace.
  - now rewrite IH.
Qed.

Lemma lstrip_no_space t : has_space t = false -> lstrip t = t.
Proof.
  destruct t as [|c t]; simpl; [reflexivity|].
  intros [Hc _]%orb_false_elim. now rewrite Hc.
Qed.

Lemma rstrip_no_space t : has_space t = false -> rstrip t = t.
Proof.
  induction t as [|c t IH]; simpl; [reflexivity|].
  intros [Hc Ht]%orb_false_elim. rewrite (IH Ht), Hc.
  now destruct t.
Qed.

Lemma lstrip_core_post core post :
  has_space core = false -> allspace post = true ->
  rstrip (lstrip (core ++ post)) = core.
Proof.
  intros Hc Hp. destruct core as [|c core].
  - simpl. clear Hc. induction post as [|d post IH]; simpl; [reflexivity|].
    simpl in Hp. apply andb_prop in Hp as [Hd Hp]. rewrite Hd. auto.
  - simpl in Hc. apply orb_false_elim in Hc as [Hc Hcore].
    change (String c core ++ post) with (String c (core ++ post)).
    cbn [lstrip]. rewrite Hc.
    change (String c (core ++ post)) with (String c core ++ post).
    rewrite rstrip_app_space by assumption.
    apply rstrip_no_space. simpl. now rewrite Hc, Hcore.
Qed.

Lemma strip_padded pre core post :
  allspace pre = true -> allspace post = true -> has_space core = false ->
  strip (pre ++ core ++ post) = core.
Proof.
  intros Hpre Hpost Hcore. unfold strip.
  rewrite lstrip_app_space by assumption.
  now apply lstrip_core_post.
Qed.

Lemma lstrip_decomp s : exists pre, s = pre ++ lstrip s /\ allspace pre = true.
Proof.
  induction s as [|c s (pre & Hs & Hpre)]; simpl.
  - now exists "".
  - destruct (isspace c) eqn:Hc.
    + exists (String c pre). simpl. rewrite Hc, Hpre. split; [rewrite append_cons; f_equal; exact Hs|reflexivity].
    + now exists "".
Qed.

Lemma rstrip_decomp s : exists post, s = rstrip s ++ post /\ allspace post = true.
Proof.
  induction s as [|c s (post & Hs & Hpost)]; simpl.
  - now exists "".
  - destruct (rstrip s) as [|d r] eqn:Hr.
    + change (s = post) in Hs. destruct (isspace c) eqn:Hc.
      * exists (String c post). split.
        -- change (String c s = String c post). now f_equal.
        -- simpl. now rewrite Hc.
      * exists post. split; [|assumption].
        change (String c s = String c post). now f_equal.
    + exists post. split; [|assumption].
      change (String c s = String c (String d r ++ post)). now f_equal.
Qed.

Lemma strip_decomp s :
  exists pre post, s = pre ++ strip s ++ post /\ allspace pre = true /\ allspace post = true.
Proof.
  destruct (lstrip_decomp s) as (pre & Hs & Hpre).
  destruct (rstrip_decomp (lstrip s)) as (post & Hl & Hpost).
  exists pre, post. unfold strip. now rewrite <- Hl.
Qed.

Lemma in_strs_In x l : in_strs x l = true <-> In x l.
Proof.
  unfold in_strs. rewrite existsb_exists. split.
  - intros (y & Hy & E). apply String.eqb_eq in E. now subst.
  - intros H. exists x. split; [assumption|apply String.eqb_refl].
Qed.
End PyStrFacts.

Lemma parse_bool_string s : _parse_bool (PyStr s) = true <-> yes_string s.
Proof.
  cbn [_parse_bool]. rewrite PyStrFacts.in_strs_In. split.
  - intros H. destruct (PyStrFacts.strip_decomp s) as (pre & post & Hs & Hpre & Hpost).
    exists pre, (PyStr.strip s), post. auto.
  - intros (pre & core & post & -> & Hpre & Hpost & Hin).
    rewrite PyStrFacts.strip_padded; [assumption..|].
    rewrite <- PyStrFacts.has_space_lower.
    destruct Hin as [<-|[<-|[<-|[]]]]; reflexivity.
Qed.

(** C3, as amended. [_parse_bool] is true on a string exactly when the
    string is "yes", "true" or "1" in any casing with white space around
    it; it is false on [None] and NaN; a native boolean passes through, and
    a number is true unless it is zero. *)
Theorem parse_bool_spec :
  (forall s, _parse_bool (PyStr s) = true <-> yes_string s)
  /\ _parse_bool PyNone = false
  /\ _parse_bool (PyFloat FNaN) = false
  /\ (forall b, _parse_bool (PyBool b) = b)
  /\ (forall z, _parse_bool (PyInt z) = negb (z =? 0)%Z)
  /\ (forall q, _parse_bool (PyFloat (FNum q)) = negb (Qeq_bool q 0)).
Proof.
  split; [exact parse_bool_string|]. repeat split; reflexivity.
Qed.

(** C3, as stated, fails: the native [True] is none of the three strings
    and is mapped to true. *)
Lemma parse_bool_other_values_not_false :
  ~ (forall v, ~ (exists s, v = PyStr s /\ yes_string s) -> _parse_bool v = false).
Proof.
  intros H. specialize (H (PyBool true)).
  assert (E : _parse_bool (PyBool true) = false).
  { apply H. intros (s & E & _). discriminate E. }
  discriminate E.
Qed.

(** ** The result monad *)

Lemma bind_ok {A B : Type} (m : result A) (f : A -> result B) (b : B) :
  m ≫= f = Ok b <-> exists a, m = Ok a /\ f a = Ok b.
Proof.
  destruct m as [a|e]; simpl; split.
  - intros H. now exists a.
  - now intros (a' & [= <-] & H).
  - discriminate.
  - now intros (a' & [=] & _).
Qed.

Lemma bind_cong {A B : Type} (m1 m2 : result A) (f g : A -> result B) :
  m1 = m2 -> (forall x, f x = g x) -> m1 ≫= f = m2 ≫= g.
Proof. intros <- H. destruct m1; simpl; auto. Qed.

Lemma bind_mret {A : Type} (m : result A) : m ≫= mret = m.
Proof. now destruct m. Qed.

Lemma traverse_ok {A B : Type} (f : A -> result B) (l : list A) (l' : list B) :
  traverse f l = Ok l' -> Forall2 (fun x y => f x = Ok y) l l'.
Proof.
  revert l'. induction l as [|x l IH]; simpl; intros l' H.
  - injection H as <-. constructor.
  - apply bind_ok in H as (y & Hy & H).
    apply bind_ok in H as (ys & Hys & H).
    injection H as <-. constructor; auto.
Qed.

(** ** Filters *)

Lemma filter_true {A : Type} (l : list A) : List.filter (fun _ => true) l = l.
Proof. induction l; simpl; congruence. Qed.

Lemma filter_filter {A : Type} (p q : A -> bool) (l : list A) :
  List.filter p (List.filter q l) = List.filter (fun x => q x && p x) l.
Proof.
  induction l as [|x l IH]; simpl; [reflexivity|].
  destruct (q x); simpl; [destruct (p x)|]; now rewrite IH.
Qed.

Lemma run_filters_app fs gs df :
  run_filters (fs ++ gs) df = run_filters fs df ≫= run_filters gs.
Proof.
  revert df. induction fs as [|f fs IH]; intros df; simpl; [reflexivity|].
  destruct (run_filter f df); simpl; auto.
Qed.

Lemma run_filters_ok fs df out :
  run_filters fs df = Ok out <->
  (forall f, In f fs -> guard f (columns df) = None)
  /\ out = mkDF (columns df) (List.filter (keep_all fs) (rows df)).
Proof.
  revert df. induction fs as [|f fs IH]; intros df; simpl.
  - unfold keep_all. simpl. rewrite filter_true. destruct df; simpl. split.
    + intros [= <-]. split; [tauto|reflexivity].
    + now intros [_ ->].
  - unfold run_filter. destruct (guard f (columns df)) eqn:G; simpl.
    + split; [discriminate|]. intros [H _]. specialize (H f (or_introl eq_refl)). congruence.
    + rewrite IH. simpl. rewrite filter_filter. split.
      * intros [H ->]. split; [|reflexivity]. intros g [<-|Hg]; auto.
      * intros [H ->]. split; [|reflexivity]. auto.
Qed.

Lemma keep_all_perm fs fs' x : Permutation fs fs' -> keep_all fs x = keep_all fs' x.
Proof.
  unfold keep_all. induction 1; simpl; try congruence.
  now rewrite !andb_assoc, (andb_comm (keep y x.2)).
Qed.

Lemma select_run c test df : select c test df = run_filter (on_column c test) df.
Proof. unfold select, run_filter, has_column. simpl. now destruct (PyStr.in_strs c (columns df)). Qed.

Lemma select_contains_run `{Library} c pat df :
  select_contains c pat df = run_filter (on_pattern c pat) df.
Proof.
  unfold select_contains, select, run_filter, has_column. simpl.
  destruct (PyStr.in_strs c (columns df)); [|reflexivity].
  now destruct (re_search_ignorecase pat).
Qed.

Lemma run_filters_one f df : run_filters [f] df = run_filter f df.
Proof. simpl. apply bind_mret. Qed.

Lemma filtering_active `{Library} a df :
  filtering a df = run_filters (active_filters a) df.
Proof.
  unfold filtering, active_filters, select_if.
  repeat (rewrite run_filters_app; apply bind_cong;
          [ repeat case_match; rewrite ?run_filters_one, ?select_run; reflexivity
          | intros ? ]).
  rewrite bind_mret.
  repeat case_match; rewrite ?run_filters_one, ?select_contains_run; reflexivity.
Qed.

(** ** Sorting and truncation *)

Lemma in_firstn {A : Type} (k : nat) (l : list A) (x : A) : In x (firstn k l) -> In x l.
Proof.
  intros H. rewrite <- (firstn_skipn k l). apply in_or_app. now left.
Qed.

Lemma StronglySorted_firstn {A : Type} (R : A -> A -> Prop) (k : nat) (l : list A) :
  StronglySorted R l -> StronglySorted R (firstn k l).
Proof.
  intros H. revert k. induction H as [|x l Hl IH Hx]; intros [|k]; simpl; try constructor.
  - apply IH.
  - rewrite List.Forall_forall in *. intros y Hy. apply Hx. eapply in_firstn, Hy.
Qed.

Lemma head_rows n df : exists k, rows (head n df) = firstn k (rows df).
Proof. unfold head. simpl. destruct (0 <=? n)%Z; eauto. Qed.

Lemma insert_desc_perm key x l : Permutation (insert_desc key x l) (x :: l).
Proof.
  induction l as [|y l IH]; simpl; [reflexivity|].
  case_match; [|reflexivity].
  rewrite IH. apply perm_swap.
Qed.

Lemma insertion_sort_perm key l : Permutation (insertion_sort_desc key l) l.
Proof.
  induction l as [|x l IH]; simpl; [reflexivity|].
  rewrite insert_desc_perm. now constructor.
Qed.

Lemma insert_desc_sorted key x l :
  StronglySorted (desc key) l -> StronglySorted (desc key) (insert_desc key x l).
Proof.
  induction 1 as [|y l Hl IH Hy]; simpl.
  - repeat constructor.
  - case_match eqn:E.
    + constructor; [assumption|].
      eapply Permutation_Forall; [symmetry; apply insert_desc_perm|].
      constructor; [|assumption]. unfold desc.
      apply negb_true_iff in E.
      destruct (Qlt_le_dec (key x.2) (key y.2)) as [Hlt|Hle]; [now apply Qlt_le_weak|].
      apply Qle_bool_iff in Hle. congruence.
    + assert (Hxy : (key y.2 <= key x.2)%Q).
      { apply negb_false_iff in E. now apply Qle_bool_iff. }
      constructor; [now constructor|].
      constructor; [exact Hxy|].
      rewrite List.Forall_forall in *. intros z Hz. unfold desc in *.
      eapply Qle_trans; [apply Hy, Hz|exact Hxy].
Qed.

Lemma insertion_sort_sorted key l :
  StronglySorted (desc key) (insertion_sort_desc key l).
Proof.
  induction l as [|x l IH]; simpl; [constructor|]. now apply insert_desc_sorted.
Qed.

Lemma sample_library_spec : LibrarySpec sample_library.
Proof.
  split; intros key l; simpl.
  - apply insertion_sort_perm.
  - apply insertion_sort_sorted.
Qed.

(** ** Loading keeps the column labels *)

Lemma fold_map_column_columns (f : pyval -> pyval) cs df :
  columns (fold_left (fun df col => if has_column col df then map_column col f df else df)
                     cs df) = columns df.
Proof.
  revert df. induction cs as [|c cs IH]; intros df; simpl; [reflexivity|].
  rewrite IH. now destruct (has_column c df).
Qed.

Lemma load_columns `{Library} input df :
  _load_data input = Ok df ->
  exists raw, input = Ok raw /\ columns df = columns raw
              /\ has_column "monthly_rent" raw = true /\ has_column "bedrooms" raw = true.
Proof.
  unfold _load_data. intros H0.
  apply bind_ok in H0 as (raw & -> & H0). exists raw. split; [reflexivity|].
  set (parsed := fold_left _ bool_columns raw) in H0.
  assert (Hc : columns parsed = columns raw).
  { apply fold_map_column_columns. }
  apply bind_ok in H0 as (df1 & H1 & H0).
  apply bind_ok in H0 as (df2 & H2 & H0). injection H0 as <-.
  unfold assign_from in H1, H2.
  destruct (has_column "monthly_rent" parsed) eqn:E1; [|discriminate].
  injection H1 as <-.
  destruct (has_column "bedrooms" (map_column _ _ parsed)) eqn:E2; [|discriminate].
  injection H2 as <-. unfold has_column in *. simpl in *. rewrite Hc in *. auto.
Qed.

Lemma loaded_not_empty `{Library} input df out fs :
  _load_data input = Ok df -> run_filters fs df = Ok out ->
  empty out = true -> rows out = [].
Proof.
  intros Hl Hf He. apply load_columns in Hl as (raw & _ & Hc & Hr & _).
  apply run_filters_ok in Hf as [_ ->]. unfold empty in He. simpl in *.
  destruct (List.filter _ _); [reflexivity|].
  rewrite Hc in He. unfold has_column in Hr. destruct (columns raw); [discriminate|discriminate].
Qed.

(** ** The shape of a search *)

Lemma search_with_inv `{Library} score df a out :
  search_with score df a = Ok out ->
  exists res, filtering a df = Ok res
    /\ ((empty res = true /\ out = res)
        \/ (empty res = false
            /\ exists scored,
                 Forall2 (scored_from score) (rows res) scored
                 /\ exists k, rows out = firstn k (sort_values_desc score_key scored))).
Proof.
  unfold search_with. intros H0. apply bind_ok in H0 as (res & Hf & H0).
  exists res. split; [assumption|].
  destruct (empty res); [left; split; congruence|right; split; [reflexivity|]].
  apply bind_ok in H0 as (sc & Hs & H0). injection H0 as <-.
  unfold add_scores in Hs. apply bind_ok in Hs as (scored & Ht & Hs). injection Hs as <-.
  exists scored. split; [|apply head_rows].
  apply traverse_ok in Ht. eapply Forall2_impl; [exact Ht|].
  intros ir jr Hx. apply bind_ok in Hx as (s & Hs & Hx). injection Hx as <-. now exists s.
Qed.

Lemma Forall2_in_r {A B : Type} (P : A -> B -> Prop) l l' y :
  Forall2 P l l' -> In y l' -> exists x, In x l /\ P x y.
Proof.
  induction 1 as [|a b l l' Hab _ IH]; simpl; [tauto|].
  intros [<-|Hy]; [eauto|]. destruct (IH Hy) as (x & Hx & HP). eauto.
Qed.

Lemma cell_insert_ne c c' v r : c <> c' -> cell c' (<[c := v]> r) = cell c' r.
Proof. intros Hne. unfold cell. now rewrite lookup_insert_ne. Qed.

(** Every row of a search result is a row that passed the filters, with at
    most a [score] cell added. *)
Lemma search_with_rows `{L : Library} {S : LibrarySpec L} score df a out i r :
  search_with score df a = Ok out -> In (i, r) (rows out) ->
  exists r0, In (i, r0) (rows df)
             /\ (forall f, In f (active_filters a) -> keep f r0 = true)
             /\ (r = r0 \/ exists s, score r0 = Ok s /\ r = <["score" := PyFloat (FNum s)]> r0).
Proof.
  intros Hs Hin. apply search_with_inv in Hs as (res & Hf & Hcase).
  rewrite filtering_active in Hf. apply run_filters_ok in Hf as [_ Hres].
  assert (Hkeep : forall r0, In (i, r0) (rows res) ->
            In (i, r0) (rows df) /\ forall f, In f (active_filters a) -> keep f r0 = true).
  { intros r0 H0. subst res. simpl in H0. apply filter_In in H0 as [H0 Hk].
    split; [assumption|]. unfold keep_all in Hk. rewrite forallb_forall in Hk. exact Hk. }
  destruct Hcase as [[_ ->]|(_ & scored & Hsc & k & Hk)].
  - exists r. destruct (Hkeep r Hin). split; [assumption|]. split; [assumption|now left].
  - rewrite Hk in Hin. apply in_firstn in Hin.
    apply (Permutation_in _ (sort_values_perm score_key scored)) in Hin.
    destruct (Forall2_in_r _ _ _ _ Hsc Hin) as ([i0 r0] & H0 & s & Hs & E).
    simpl in *. injection E as -> ->. exists r0. destruct (Hkeep r0 H0).
    split; [assumption|]. split; [assumption|right; eauto].
Qed.

(** C1. With [max_rent = R], every listing of the result of [search] has a
    rent cell that holds a number at most [R]; a listing whose rent is
    missing (NaN) is never among them. *)
Theorem search_max_rent `{L : Library} {S : LibrarySpec L}
    (df : DataFrame) (a : search_args) (R : pyfloat) (out : DataFrame) :
  max_rent a = Some R ->
  search df a = Ok out ->
  forall i r, In (i, r) (rows out) ->
    cell "monthly_rent" r <> PyFloat FNaN
    /\ exists q b, num_of (cell "monthly_rent" r) = Some q /\ R = FNum b /\ (q <= b)%Q.
Proof.
  intros HR Hs i r Hin.
  destruct (search_with_rows _ _ _ _ _ _ Hs Hin) as (r0 & _ & Hkeep & Hr).
  assert (Hcell : cell "monthly_rent" r = cell "monthly_rent" r0).
  { destruct Hr as [->|(s & _ & ->)]; [reflexivity|]. now apply cell_insert_ne. }
  specialize (Hkeep (on_column "monthly_rent" (cell_le R))).
  unfold active_filters in Hkeep. rewrite HR in Hkeep.
  specialize (Hkeep (or_introl eq_refl)). simpl in Hkeep.
  rewrite Hcell. unfold cell_le in Hkeep.
  destruct (num_of (cell "monthly_rent" r0)) as [q|] eqn:Hq; [|discriminate].
  destruct R as [|b]; [discriminate|].
  split.
  - intros E. rewrite E in Hq. discriminate.
  - exists q, b. apply Qle_bool_iff in Hkeep. auto.
Qed.

Lemma search_max_rent_witness :
  max_rent rent_700 = Some (FNum 700)
  /\ exists out,
       @search sample_library sample_frame rent_700 = Ok out
       /\ rows out <> []
       /\ forall i r, In (i, r) (rows out) ->
            cell "monthly_rent" r <> PyFloat FNaN
            /\ exists q b, num_of (cell "monthly_rent" r) = Some q
                           /\ FNum 700 = FNum b /\ (q <= b)%Q.
Proof.
  split; [reflexivity|]. eexists. split; [reflexivity|]. split; [discriminate|].
  apply (@search_max_rent sample_library sample_library_spec
           sample_frame rent_700 (FNum 700)); reflexivity.
Defined.

(** X23. For a loaded dataset the result of [search] is in descending order
    of score, whatever sort meets the contract of [sort_values], and each
    of its rows is a row of the dataset with its score written into the
    [score] cell. Nothing is said of the order among equal scores. *)
Theorem search_sorted_by_score `{L : Library} {S : LibrarySpec L}
    (input : result DataFrame) (df : DataFrame) (a : search_args) (out : DataFrame) :
  _load_data input = Ok df ->
  search df a = Ok out ->
  StronglySorted (desc score_key) (rows out)
  /\ forall i r, In (i, r) (rows out) ->
       exists r0 s, In (i, r0) (rows df)
                    /\ _score_listing r0 = Ok s
                    /\ r = <["score" := PyFloat (FNum s)]> r0
                    /\ score_key r = s.
Proof.
  intros Hl Hs.
  assert (Hrows : forall i r, In (i, r) (rows out) ->
            exists r0 s, In (i, r0) (rows df) /\ _score_listing r0 = Ok s
                         /\ r = <["score" := PyFloat (FNum s)]> r0 /\ score_key r = s).
  { intros i r Hin.
    pose proof Hs as Hs'. apply search_with_inv in Hs' as (res & Hf & Hcase).
    destruct Hcase as [[He ->]|(_ & scored & Hsc & k & Hk)].
    - rewrite filtering_active in Hf.
      rewrite (loaded_not_empty _ _ _ _ Hl Hf He) in Hin. destruct Hin.
    - destruct (search_with_rows _ _ _ _ _ _ Hs Hin) as (r0 & H0 & _ & _).
      rewrite Hk in Hin. apply in_firstn in Hin.
      apply (Permutation_in _ (sort_values_perm score_key scored)) in Hin.
      destruct (Forall2_in_r _ _ _ _ Hsc Hin) as ([i1 r1] & H1 & s & Hs1 & E).
      simpl in *. injection E as -> ->.
      rewrite filtering_active in Hf. apply run_filters_ok in Hf as [_ ->].
      simpl in H1. apply filter_In in H1 as [H1 _].
      exists r1, s. repeat split; try assumption.
      unfold score_key. now rewrite lookup_insert_eq. }
  split; [|exact Hrows].
  apply search_with_inv in Hs as (res & Hf & Hcase).
  destruct Hcase as [[He ->]|(_ & scored & _ & k & ->)].
  - rewrite filtering_active in Hf.
    rewrite (loaded_not_empty _ _ _ _ Hl Hf He). constructor.
  - apply StronglySorted_firstn, sort_values_sorted.
Qed.

Lemma search_sorted_by_score_witness :
  exists df out,
    @_load_data sample_library (Ok mixed_frame) = Ok df
    /\ @search sample_library df default_args = Ok out
    /\ map fst (rows out) = [1; 2; 0]%nat
    /\ map (fun ir => score_key ir.2) (rows out) = [3000 # 100; 2000 # 100; 1000 # 100]
    /\ StronglySorted (desc score_key) (rows out)
    /\ forall i r, In (i, r) (rows out) ->
         exists r0 s, In (i, r0) (rows df)
                      /\ @_score_listing sample_library r0 = Ok s
                      /\ r = <["score" := PyFloat (FNum s)]> r0
                      /\ score_key r = s.
Proof.
  eexists. eexists. split; [reflexivity|]. split; [reflexivity|].
  split; [reflexivity|]. split; [reflexivity|].
  apply (@search_sorted_by_score sample_library sample_library_spec
           (Ok mixed_frame) _ default_args); reflexivity.
Defined.

(** C4. [search] with [language="mandarin"] returns what it returns with
    [language="Chinese"], all other arguments equal: both are looked up in
    [LANGUAGE_ALIASES] in lower case and give the pattern [Chinese]. *)
Theorem search_mandarin_is_chinese `{L : Library} (df : DataFrame) (a : search_args) :
  dict_get LANGUAGE_ALIASES (PyStr.lower "mandarin") "mandarin" = "Chinese"
  /\ dict_get LANGUAGE_ALIASES (PyStr.lower "Chinese") "Chinese" = "Chinese"
  /\ filtering (with_language (Some "mandarin") a) df
     = filtering (with_language (Some "Chinese") a) df
  /\ search df (with_language (Some "mandarin") a)
     = search df (with_language (Some "Chinese") a).
Proof. repeat split; reflexivity. Qed.

(** C6. The filters of a call compose by conjunction and in any order: run
    in any permutation [fs'] of the source's order they succeed with the
    same frame or fail together, the surviving rows are the rows of the
    dataset that pass every test, and a row survives exactly when each
    filter alone, run on the whole dataset, accepts it. *)
Theorem filters_commute `{L : Library}
    (df : DataFrame) (a : search_args) (fs' : list row_filter) (out : DataFrame) :
  Permutation (active_filters a) fs' ->
  (run_filters fs' df = Ok out <-> filtering a df = Ok out)
  /\ (filtering a df = Ok out ->
      rows out = List.filter (keep_all fs') (rows df)
      /\ forall x, In x (rows out) <->
           In x (rows df)
           /\ forall f, In f fs' -> exists o, run_filter f df = Ok o /\ In x (rows o)).
Proof.
  intros Hp.
  assert (Hrows : List.filter (keep_all (active_filters a)) (rows df)
                  = List.filter (keep_all fs') (rows df)).
  { apply filter_ext. intros x. now apply keep_all_perm. }
  assert (Hguard : (forall f, In f fs' -> guard f (columns df) = None)
                   <-> (forall f, In f (active_filters a) -> guard f (columns df) = None)).
  { split; intros H f Hf; apply H.
    - eapply Permutation_in; eassumption.
    - eapply Permutation_in; [symmetry|]; eassumption. }
  rewrite filtering_active, !run_filters_ok, Hrows, Hguard.
  split; [reflexivity|].
  intros [Hg ->]. simpl. split; [reflexivity|].
  intros x. rewrite filter_In. unfold keep_all. rewrite forallb_forall.
  pose proof (proj2 Hguard Hg) as Hg'. clear Hg. rename Hg' into Hg.
  split.
  - intros [Hx Hk]. split; [assumption|]. intros f Hf.
    unfold run_filter. rewrite (Hg f Hf). eexists. split; [reflexivity|].
    simpl. apply filter_In. auto.
  - intros [Hx Hk]. split; [assumption|]. intros f Hf.
    destruct (Hk f Hf) as (o & Ho & Hin). unfold run_filter in Ho.
    rewrite (Hg f Hf) in Ho. injection Ho as <-. simpl in Hin.
    now apply filter_In in Hin as [_ Hin].
Qed.

Lemma filters_commute_witness :
  let fs' := [on_column "section8_accepted" flag_test;
              on_column "monthly_rent" (cell_le (FNum 950))] in
  Permutation (@active_filters sample_library rent_and_section8) fs'
  /\ exists out,
       run_filters fs' sample_frame = Ok out
       /\ @filtering sample_library rent_and_section8 sample_frame = Ok out
       /\ map fst (rows out) = [0; 1]%nat.
Proof.
  intros fs'. split; [apply perm_swap|].
  eexists. split; [reflexivity|]. split; [|reflexivity].
  apply (@filters_commute sample_library sample_frame rent_and_section8 fs');
    [apply perm_swap|reflexivity].
Defined.

(** C8. When no row passes the filters, [search] returns the empty frame
    whatever the scoring function is (even one that raises on every call,
    so none is made), and [answer_query] on a query with these arguments
    answers with the fixed apology, which contains the word sorry. *)
Theorem no_match_is_empty_and_apologises `{L : Library}
    (df : DataFrame) (a : search_args) (filtered : DataFrame) :
  filtering a df = Ok filtered ->
  rows filtered = [] ->
  (forall score, search_with score df a = Ok filtered)
  /\ search df a = Ok filtered
  /\ (forall query n p,
        parse_query query = Ok p ->
        kwargs (<["top_n" := PyInt n]> p) = a ->
        answer_query df query n
        = Ok (mkAnswer (<["top_n" := PyInt n]> p) filtered no_match_summary))
  /\ PyStr.contains "sorry" (PyStr.lower no_match_summary) = true.
Proof.
  intros Hf Hr.
  assert (He : empty filtered = true) by (unfold empty; now rewrite Hr).
  assert (Hs : forall score, search_with score df a = Ok filtered).
  { intros score. unfold search_with. rewrite Hf. simpl. now rewrite He. }
  split; [exact Hs|]. split; [apply Hs|]. split; [|reflexivity].
  intros query n p Hp Ha. unfold answer_query. rewrite Hp. simpl.
  rewrite Ha. unfold search. rewrite Hs. simpl. now rewrite He.
Qed.

Lemma no_match_is_empty_and_apologises_witness :
  let L := sample_library in
  let a := kwargs (<["top_n" := PyInt 5]> (<["min_bedrooms" := PyInt 9]> ∅)) in
  let filtered := mkDF sample_columns [] in
  filtering a sample_frame = Ok filtered
  /\ rows filtered = []
  /\ parse_query "9 bedroom" = Ok (<["min_bedrooms" := PyInt 9]> ∅)
  /\ search_with (fun _ => Raise (ValueError "scoring")) sample_frame a = Ok filtered
  /\ (exists ans, answer_query sample_frame "9 bedroom" 5 = Ok ans
                  /\ summary ans = no_match_summary).
Proof.
  intros L a filtered.
  destruct (@no_match_is_empty_and_apologises L sample_frame a filtered eq_refl eq_refl)
    as (Hs & _ & Hq & _).
  split; [reflexivity|]. split; [reflexivity|]. split; [reflexivity|].
  split; [apply Hs|].
  eexists. split; [apply (Hq "9 bedroom" 5%Z _ eq_refl eq_refl)|reflexivity].
Defined.



Lemma round_half_even_le (y : Q) (n : Z) : (y <= inject_Z n)%Q -> (round_half_even y <= n)%Z.
Proof.
  intros Hy. unfold round_half_even.
  pose proof (Qfloor_resp_le _ _ Hy) as Hf. rewrite Qfloor_Z in Hf.
  pose proof (Qfloor_le y) as Hlo.
  destruct (Z.eq_dec (Qfloor y) n) as [E|E].
  - assert (H0 : (2 * (y - inject_Z (Qfloor y)) == 0)%Q).
    { rewrite E in *. lra. }
    rewrite (Qfloor_comp _ _ H0). change (Qfloor 0) with 0%Z. simpl. lia.
  - repeat case_match; lia.
Qed.

Lemma round2_le_90 (x : Q) : (x <= 90)%Q -> (round2 x <= 90)%Q.
Proof.
  intros Hx. unfold round2.
  assert (H : (round_half_even (x * 100) <= 9000)%Z).
  { apply round_half_even_le. change (inject_Z 9000) with 9000%Q. lra. }
  rewrite Zle_Qle in H. change (inject_Z 9000) with 9000%Q in H.
  unfold Qdiv. change (/ 100)%Q with (1 # 100)%Q. lra.
Qed.

Lemma bonuses_range `{L : Library} (r : row) : (0 <= bonuses r <= 50)%Q.
Proof. unfold bonuses. repeat case_match; lra. Qed.

Lemma max0_range (x : Q) : (x <= 40)%Q -> (0 <= max0 x <= 40)%Q.
Proof.
  intros Hx. unfold max0. destruct (Qle_bool x 0) eqn:E; [lra|].
  assert (~ (x <= 0)%Q) by (rewrite <- Qle_bool_iff; congruence). lra.
Qed.

Lemma max0_eq_40 (x : Q) : (max0 x == 40)%Q <-> (x == 40)%Q.
Proof.
  unfold max0. destruct (Qle_bool x 0) eqn:E.
  - apply Qle_bool_iff in E. split; intros H; lra.
  - reflexivity.
Qed.

(** C9. For a listing of the data model, whose rent is missing, unreadable
    or not negative, the score is at most 90: the affordability term lies
    between 0 and 40, is 40 at rent 0 and below 40 for every rent from one
    cent on, and the bonuses sum to at most 50. The score is returned
    whenever [float] reads the rent without overflow. *)
Theorem score_at_most_90 `{L : Library} (r : row) (v : pyval) :
  r !! "monthly_rent" = Some v ->
  rent_not_negative v ->
  float_overflows v = false ->
  exists s, _score_listing r = Ok s
    /\ (s <= 90)%Q
    /\ (0 <= affordability v <= 40)%Q
    /\ (forall q, py_float v = Some (FNum q) -> (q == 0)%Q -> (affordability v == 40)%Q)
    /\ (forall q, py_float v = Some (FNum q) -> (1 # 100 <= q)%Q ->
          (affordability v < 40)%Q)
    /\ (0 <= bonuses r <= 50)%Q.
Proof.
  intros Hv Hnn Hov. unfold _score_listing, getitem. rewrite Hv.
  cbn [mbind result_bind mret result_ret]. rewrite Hov.
  pose proof (bonuses_range r) as Hb.
  assert (Ha : (0 <= affordability v <= 40)%Q
               /\ (forall q, py_float v = Some (FNum q) -> (q == 0)%Q ->
                     (affordability v == 40)%Q)
               /\ (forall q, py_float v = Some (FNum q) -> (1 # 100 <= q)%Q ->
                     (affordability v < 40)%Q)).
  { unfold affordability, rent_not_negative in *.
    destruct (py_float v) as [[|rent]|].
    - split; [lra|]. split; intros q [=].
    - specialize (Hnn rent eq_refl).
      unfold Qdiv. change (/ 30)%Q with (1 # 30)%Q.
      split; [apply max0_range; lra|]. split.
      + intros q [= <-] Hq. apply max0_eq_40. lra.
      + intros q [= <-] Hq.
        destruct (max0_range (40 - rent * (1 # 30))) as [_ Hle]; [lra|].
        destruct (Qlt_le_dec (max0 (40 - rent * (1 # 30))) 40) as [Hlt|Hge]; [exact Hlt|].
        assert (E : (max0 (40 - rent * (1 # 30)) == 40)%Q) by lra.
        apply (proj1 (max0_eq_40 _)) in E. lra.
    - split; [lra|]. split; intros q [=]. }
  eexists. split; [reflexivity|]. split; [|split; [apply Ha|split; [apply Ha|split; [apply Ha|exact Hb]]]].
  apply round2_le_90. destruct Ha as [Ha _]. lra.
Qed.

Lemma score_at_most_90_witness :
  best_row !! "monthly_rent" = Some (PyFloat (FNum 0))
  /\ @rent_not_negative sample_library (PyFloat (FNum 0))
  /\ exists s, @_score_listing sample_library best_row = Ok s
       /\ (s <= 90)%Q
       /\ @_score_listing sample_library best_row = Ok (9000 # 100)
       /\ (@affordability sample_library (PyFloat (FNum 0)) == 40)%Q.
Proof.
  assert (Hn : @rent_not_negative sample_library (PyFloat (FNum 0))).
  { intros q [= <-]. apply Qle_refl. }
  destruct (@score_at_most_90 sample_library best_row (PyFloat (FNum 0))
              eq_refl Hn eq_refl) as (s & Hs & Hle & _ & Heq & _).
  split; [reflexivity|]. split; [exact Hn|].
  exists s. split; [exact Hs|]. split; [exact Hle|]. split; [reflexivity|].
  apply (Heq 0%Q); reflexivity.
Defined.

(** The bound needs the rent not to be negative: a listing with rent -300
    and every bonus scores 100. *)
Lemma score_above_90_for_negative_rent :
  exists s, @_score_listing sample_library negative_rent_row = Ok s /\ (90 < s)%Q.
Proof. eexists. split; [reflexivity|]. vm_compute. reflexivity. Qed.

(** C10. Every method other than "call" and "sms" behaves as "email": when
    the listing's agent_email is empty (or otherwise false) the result is
    success=false with an error text and no transport is entered; when it
    is not, the one transport entered is [send_email]. *)
Theorem contact_other_methods_use_email `{L : Library} `{N : Network}
    (self : AgentCaller) (listing : row)
    (user_name user_phone user_email preferred_language method : string) :
  method <> "call" ->
  method <> "sms" ->
  contact_agent_for_listing self listing user_name user_phone user_email
    preferred_language method
  = contact_agent_for_listing self listing user_name user_phone user_email
      preferred_language "email"
  /\ (truthy (listing_get listing "agent_email" (PyStr "")) = false ->
      contact_agent_for_listing self listing user_name user_phone user_email
        preferred_language method
      = ([], failure "No agent email for this listing."))
  /\ (truthy (listing_get listing "agent_email" (PyStr "")) = true ->
      exists to_address subject body,
        (contact_agent_for_listing self listing user_name user_phone user_email
           preferred_language method).1
        = [SendEmail to_address subject body])
  /\ failure "No agent email for this listing." !! "success" = Some (PyBool false)
  /\ failure "No agent email for this listing." !! "error"
     = Some (PyStr "No agent email for this listing.").
Proof.
  intros Hc Hs. unfold contact_agent_for_listing.
  apply String.eqb_neq in Hc, Hs. rewrite Hc, Hs. simpl.
  split; [reflexivity|]. split; [|split; [|split; reflexivity]].
  - intros ->. reflexivity.
  - intros ->. simpl. eauto.
Qed.

Lemma contact_other_methods_use_email_witness :
  "fax" <> "call" /\ "fax" <> "sms"
  /\ @contact_agent_for_listing sample_library offline_network sample_caller
       cheap_row "John" "555" "john@example.com" "English" "fax"
     = ([], failure "No agent email for this listing.").
Proof.
  assert (H1 : "fax" <> "call") by discriminate.
  assert (H2 : "fax" <> "sms") by discriminate.
  split; [exact H1|]. split; [exact H2|].
  apply (@contact_other_methods_use_email sample_library offline_network
           sample_caller cheap_row "John" "555" "john@example.com" "English" "fax" H1 H2).
  reflexivity.
Defined.

(** ** Lookups in a dictionary built key by key *)

Lemma lookup_set_flag_ne t k (m : row) k' : k <> k' -> set_flag t k m !! k' = m !! k'.
Proof. intros Hne. unfold set_flag. destruct t; [now rewrite lookup_insert_ne|reflexivity]. Qed.

Lemma lookup_set_flag_eq t k (m : row) :
  set_flag t k m !! k = if t then Some (PyBool true) else m !! k.
Proof. unfold set_flag. destruct t; [now rewrite lookup_insert_eq|reflexivity]. Qed.

Lemma lookup_opt_insert_ne {A : Type} (o : option A) k (f : A -> pyval) (m : row) k' :
  k <> k' ->
  match o with Some c => <[k := f c]> m | None => m end !! k' = m !! k'.
Proof. intros Hne. destruct o; [now rewrite lookup_insert_ne|reflexivity]. Qed.

Lemma lookup_opt_insert_eq {A : Type} (o : option A) k (f : A -> pyval) (m : row) :
  match o with Some c => <[k := f c]> m | None => m end !! k
  = match o with Some c => Some (f c) | None => m !! k end.
Proof. destruct o; [now rewrite lookup_insert_eq|reflexivity]. Qed.

Lemma lookup_if_insert_ne (b : bool) k v (m : row) k' :
  k <> k' -> (if b then <[k := v]> m else m) !! k' = m !! k'.
Proof. intros Hne. destruct b; [now rewrite lookup_insert_ne|reflexivity]. Qed.

Lemma lookup_if_insert_eq (b : bool) k v (m : row) :
  (if b then <[k := v]> m else m) !! k = if b then Some v else m !! k.
Proof. destruct b; [now rewrite lookup_insert_eq|reflexivity]. Qed.

Ltac lookups :=
  repeat first
    [ rewrite lookup_set_flag_ne by discriminate
    | rewrite lookup_set_flag_eq
    | rewrite lookup_opt_insert_ne by discriminate
    | rewrite lookup_opt_insert_eq
    | rewrite lookup_if_insert_ne by discriminate
    | rewrite lookup_if_insert_eq
    | rewrite lookup_insert_ne by discriminate
    | rewrite lookup_insert_eq
    | rewrite lookup_empty ].

Lemma keys_within_empty ks : keys_within ks ∅.
Proof. intros k [v Hv]. rewrite lookup_empty in Hv. discriminate. Qed.

Lemma keys_within_insert ks k v (m : row) :
  In k ks -> keys_within ks m -> keys_within ks (<[k := v]> m).
Proof.
  intros Hk Hm k' Hs. destruct (decide (k = k')) as [<-|Hne]; [assumption|].
  rewrite lookup_insert_ne in Hs by assumption. auto.
Qed.

Lemma keys_within_set_flag ks t k (m : row) :
  In k ks -> keys_within ks m -> keys_within ks (set_flag t k m).
Proof. intros Hk Hm. unfold set_flag. destruct t; [now apply keys_within_insert|assumption]. Qed.

(** ** The matched groups are numerals *)

Lemma int_digits_ok s acc : alldigits s = true -> exists n, int_digits acc s = Ok n.
Proof.
  revert acc. induction s as [|c s IH]; simpl; intros acc H; [eauto|].
  apply andb_prop in H as [Hc Hs]. rewrite Hc. auto.
Qed.

Lemma py_int_ok s : s <> "" -> alldigits s = true -> exists n, py_int s = Ok n.
Proof. intros Hne H. destruct s; [congruence|]. now apply int_digits_ok. Qed.

Lemma digits_then_boundary_digits k s g :
  digits_then_boundary k s = Some g -> alldigits g = true /\ String.length g = k.
Proof.
  revert s g. induction k as [|k IH]; simpl; intros s g H.
  - destruct (boundary_after s); [|discriminate]. now injection H as <-.
  - destruct s as [|c s]; [discriminate|].
    destruct (PyStr.isdigit c) eqn:Hc; [|discriminate].
    destruct (digits_then_boundary k s) as [g'|] eqn:E; [|discriminate].
    injection H as <-. destruct (IH _ _ E) as [Hd Hl]. simpl. now rewrite Hc, Hd, Hl.
Qed.

Lemma digits34_numeral s g : digits34 s = Some g -> exists n, py_int g = Ok n.
Proof.
  unfold digits34. intros H.
  assert (Hg : exists k, digits_then_boundary (S k) s = Some g).
  { destruct (digits_then_boundary 4 s) eqn:E; [injection H as <-|]; eauto. }
  destruct Hg as (k & Hk). apply digits_then_boundary_digits in Hk as [Hd Hl].
  apply py_int_ok; [|assumption]. intros ->. discriminate.
Qed.

Lemma rent_at_numeral prev s g : rent_at prev s = Some g -> exists n, py_int g = Ok n.
Proof.
  unfold rent_at. intros E.
  destruct s as [|c s].
  - destruct (boundary_before prev); [|discriminate]. now apply digits34_numeral in E.
  - destruct (Ascii.eqb c "$") eqn:Hc.
    + apply Ascii.eqb_eq in Hc as ->. now apply digits34_numeral in E.
    + assert (E' : (if boundary_before prev then digits34 (String c s) else None) = Some g).
      { destruct c as [[] [] [] [] [] [] [] []]; try exact E; discriminate Hc. }
      destruct (boundary_before prev); [|discriminate].
      now apply digits34_numeral in E'.
Qed.

Lemma rent_search_numeral prev s g : rent_search prev s = Some g -> exists n, py_int g = Ok n.
Proof.
  revert prev. induction s as [|c s IH]; intros prev.
  - change (rent_search prev "") with
      (match rent_at prev "" with Some g => Some g | None => None end).
    destruct (rent_at prev "") eqn:E; [|discriminate].
    intros [= <-]. eapply rent_at_numeral, E.
  - change (rent_search prev (String c s)) with
      (match rent_at prev (String c s) with
       | Some g => Some g
       | None => rent_search (Some c) s
       end).
    destruct (rent_at prev (String c s)) eqn:E.
    + intros [= <-]. eapply rent_at_numeral, E.
    + apply IH.
Qed.

Lemma bed_search_numeral s g : bed_search s = Some g -> exists n, py_int g = Ok n.
Proof.
  induction s as [|c s IH]; [discriminate|].
  change (bed_search (String c s)) with
    (match bed_at (String c s) with Some g => Some g | None => bed_search s end).
  destruct (bed_at (String c s)) eqn:E; [|apply IH].
  intros [= <-]. unfold bed_at in E.
  destruct (PyStr.isdigit c && _) eqn:Hc; [|discriminate].
  injection E as <-. apply andb_prop in Hc as [Hc _].
  apply py_int_ok; [discriminate|]. simpl. now rewrite Hc.
Qed.

Lemma keys_within_opt {A : Type} ks (o : option A) k (f : A -> pyval) (m : row) :
  In k ks -> keys_within ks m ->
  keys_within ks (match o with Some c => <[k := f c]> m | None => m end).
Proof. intros Hk Hm. destruct o; [now apply keys_within_insert|assumption]. Qed.

Lemma keys_within_if ks (b : bool) k v (m : row) :
  In k ks -> keys_within ks m -> keys_within ks (if b then <[k := v]> m else m).
Proof. intros Hk Hm. destruct b; [now apply keys_within_insert|assumption]. Qed.

Ltac keys :=
  repeat first
    [ apply keys_within_empty
    | apply keys_within_set_flag; [simpl; tauto|]
    | apply keys_within_opt; [simpl; tauto|]
    | apply keys_within_if; [simpl; tauto|]
    | apply keys_within_insert; [simpl; tauto|] ].

(** C7. [parse_query] returns a dictionary on every input: the two calls
    of [int] are on numerals, so nothing raises. Each key is present with
    its value exactly when its rule finds its pattern in the lower-cased
    text, absent otherwise, and no other key is set. *)
Theorem parse_query_total (query : string) :
  exists params,
    parse_query query = Ok params
    /\ match rent_search None (PyStr.lower query) with
       | Some g => exists n, py_int g = Ok n /\ params !! "max_rent" = Some (PyInt n)
       | None => params !! "max_rent" = None
       end
    /\ match bed_search (PyStr.lower query) with
       | Some g => exists n, py_int g = Ok n /\ params !! "min_bedrooms" = Some (PyInt n)
       | None => params !! "min_bedrooms" = None
       end
    /\ params !! "city"
       = match List.find (fun c => PyStr.contains c (PyStr.lower query)) cities with
         | Some c => Some (PyStr (PyStr.title c))
         | None => None
         end
    /\ params !! "state"
       = (if PyStr.contains " ga " (PyStr.lower query)
             || PyStr.contains "georgia" (PyStr.lower query)
             || PyStr.endswith " ga" (PyStr.lower query)
          then Some (PyStr "GA") else None)
    /\ params !! "section8"
       = (if PyStr.contains "section 8" (PyStr.lower query)
             || PyStr.contains "section8" (PyStr.lower query)
             || PyStr.contains "voucher" (PyStr.lower query)
          then Some (PyBool true) else None)
    /\ params !! "hud_approved"
       = (if PyStr.contains "hud" (PyStr.lower query) then Some (PyBool true) else None)
    /\ params !! "low_income_only"
       = (if PyStr.any_in ["low income"; "low-income"; "affordable"; "cheap"; "subsidized"]
                          (PyStr.lower query)
          then Some (PyBool true) else None)
    /\ params !! "needs_transit"
       = (if PyStr.any_in ["transit"; "bus"; "marta"; "train"; "public transport"]
                          (PyStr.lower query)
          then Some (PyBool true) else None)
    /\ params !! "pets_allowed"
       = (if PyStr.contains "pet" (PyStr.lower query)
             || PyStr.contains "dog" (PyStr.lower query)
             || PyStr.contains "cat" (PyStr.lower query)
          then Some (PyBool true) else None)
    /\ params !! "accessibility"
       = (if PyStr.any_in ["wheelchair"; "accessible"; "accessibility";
                           "disability"; "disabled"] (PyStr.lower query)
          then Some (PyBool true) else None)
    /\ params !! "language"
       = match List.find (fun kv => PyStr.contains kv.1 (PyStr.lower query))
                         LANGUAGE_ALIASES with
         | Some kv => Some (PyStr kv.2)
         | None => None
         end
    /\ keys_within query_keys params.
Proof.
  unfold parse_query.
  set (q := PyStr.lower query).
  destruct (rent_search None q) as [g1|] eqn:R;
    [destruct (rent_search_numeral _ _ _ R) as (n1 & Hn1); rewrite Hn1|];
    (destruct (bed_search q) as [g2|] eqn:B;
       [destruct (bed_search_numeral _ _ B) as (n2 & Hn2); rewrite Hn2|]);
    cbn [mbind result_bind mret result_ret];
    (eexists; split; [reflexivity|]);
    repeat match goal with |- _ /\ _ => split end;
    try (lookups; solve [reflexivity | eauto]);
    keys.
Qed.


(** ** What a search returns, argument by argument *)

Lemma search_rows_pass `{L : Library} {S : LibrarySpec L} df a out i r c test :
  search df a = Ok out -> In (i, r) (rows out) ->
  In (on_column c test) (active_filters a) -> c <> "score" ->
  test (cell c r) = true.
Proof.
  intros Hs Hin Hf Hc.
  destruct (search_with_rows _ _ _ _ _ _ Hs Hin) as (r0 & _ & Hkeep & Hr).
  specialize (Hkeep _ Hf). simpl in Hkeep.
  destruct Hr as [->|(s & _ & ->)]; [assumption|].
  rewrite cell_insert_ne; [assumption|congruence].
Qed.

Ltac in_active H :=
  unfold active_filters; rewrite ?in_app_iff; rewrite ?H; simpl; tauto.

(** X1. Every listing that [search] returns has at least [min_bedrooms]
    bedrooms when that argument is not zero, and an income limit of at most
    [ami_percent] when that argument is given; a listing whose cell is
    missing (NaN) is never returned under either filter. *)
Theorem search_min_bedrooms_and_ami `{L : Library} {S : LibrarySpec L}
    (df : DataFrame) (a : search_args) (out : DataFrame) :
  search df a = Ok out ->
  forall i r, In (i, r) (rows out) ->
    (min_bedrooms a <> 0%Z ->
     exists q, num_of (cell "bedrooms" r) = Some q /\ (inject_Z (min_bedrooms a) <= q)%Q)
    /\ (forall p, ami_percent a = Some p ->
        exists q, num_of (cell "income_limit_percent_ami" r) = Some q
                  /\ (q <= inject_Z p)%Q).
Proof.
  intros Hs i r Hin. split.
  - intros HB. apply Z.eqb_neq in HB.
    assert (H : cell_ge (min_bedrooms a) (cell "bedrooms" r) = true).
    { eapply search_rows_pass; [exact Hs|exact Hin| |discriminate]. in_active HB. }
    unfold cell_ge in H. destruct (num_of (cell "bedrooms" r)) as [q|]; [|discriminate].
    exists q. split; [reflexivity|]. now apply Qle_bool_iff.
  - intros p Hp.
    assert (H : cell_le (FNum (inject_Z p)) (cell "income_limit_percent_ami" r) = true).
    { eapply search_rows_pass; [exact Hs|exact Hin| |discriminate]. in_active Hp. }
    unfold cell_le in H.
    destruct (num_of (cell "income_limit_percent_ami" r)) as [q|]; [|discriminate].
    exists q. split; [reflexivity|]. now apply Qle_bool_iff.
Qed.

Lemma search_min_bedrooms_and_ami_witness :
  exists out,
    @search sample_library sample_frame two_beds_atlanta_s8 = Ok out
    /\ map fst (rows out) = [0; 1]%nat
    /\ forall i r, In (i, r) (rows out) ->
         (min_bedrooms two_beds_atlanta_s8 <> 0%Z ->
          exists q, num_of (cell "bedrooms" r) = Some q
                    /\ (inject_Z (min_bedrooms two_beds_atlanta_s8) <= q)%Q)
         /\ (forall p, ami_percent two_beds_atlanta_s8 = Some p ->
             exists q, num_of (cell "income_limit_percent_ami" r) = Some q
                       /\ (q <= inject_Z p)%Q).
Proof.
  eexists. split; [reflexivity|]. split; [reflexivity|].
  apply (@search_min_bedrooms_and_ami sample_library sample_library_spec
           sample_frame two_beds_atlanta_s8). reflexivity.
Defined.

(** X2. Every listing that [search] returns has the city of a non-empty
    [city] argument and the state of a non-empty [state] argument, compared
    without regard to case against the trimmed argument; with
    [accessibility] its accessibility text is neither blank nor "None"
    once trimmed. *)
Theorem search_city_state_accessibility `{L : Library} {S : LibrarySpec L}
    (df : DataFrame) (a : search_args) (out : DataFrame) :
  search df a = Ok out ->
  forall i r, In (i, r) (rows out) ->
    (forall c, city a = Some c -> c <> "" ->
     exists s, cell "city" r = PyStr s
               /\ PyStr.lower s = PyStr.lower (PyStr.strip c))
    /\ (forall st, state a = Some st -> st <> "" ->
        exists s, cell "state" r = PyStr s
                  /\ PyStr.upper s = PyStr.upper (PyStr.strip st))
    /\ (accessibility a = true ->
        exists s, cell "accessibility_features" r = PyStr s
                  /\ PyStr.strip s <> "None" /\ PyStr.strip s <> "").
Proof.
  intros Hs i r Hin. split; [|split].
  - intros c Hc Hne.
    assert (Hg : given (city a) = Some c) by (rewrite Hc; now destruct c).
    assert (H : city_test c (cell "city" r) = true).
    { eapply search_rows_pass; [exact Hs|exact Hin| |discriminate]. in_active Hg. }
    unfold city_test in H. destruct (cell "city" r) as [| | | |s]; try discriminate.
    exists s. split; [reflexivity|]. now apply String.eqb_eq.
  - intros st Hst Hne.
    assert (Hg : given (state a) = Some st) by (rewrite Hst; now destruct st).
    assert (H : state_test st (cell "state" r) = true).
    { eapply search_rows_pass; [exact Hs|exact Hin| |discriminate]. in_active Hg. }
    unfold state_test in H. destruct (cell "state" r) as [| | | |s]; try discriminate.
    exists s. split; [reflexivity|]. now apply String.eqb_eq.
  - intros Ha.
    assert (H : accessibility_test (cell "accessibility_features" r) = true).
    { eapply search_rows_pass; [exact Hs|exact Hin| |discriminate]. in_active Ha. }
    unfold accessibility_test in H.
    destruct (cell "accessibility_features" r) as [| | | |s]; try discriminate.
    exists s. split; [reflexivity|].
    apply andb_prop in H as [H1 H2].
    apply negb_true_iff in H1, H2. apply String.eqb_neq in H1, H2. auto.
Qed.

Lemma search_city_state_accessibility_witness :
  city two_beds_atlanta_s8 = Some " ATLANTA "
  /\ exists out,
       @search sample_library sample_frame two_beds_atlanta_s8 = Ok out
       /\ map fst (rows out) = [0; 1]%nat
       /\ forall i r, In (i, r) (rows out) ->
            exists s, cell "city" r = PyStr s
                      /\ PyStr.lower s = PyStr.lower (PyStr.strip " ATLANTA ").
Proof.
  split; [reflexivity|].
  eexists. split; [reflexivity|]. split; [reflexivity|].
  intros i r Hin.
  assert (Hne : " ATLANTA " <> "") by discriminate.
  exact (proj1 (@search_city_state_accessibility sample_library
                  sample_library_spec sample_frame two_beds_atlanta_s8 _
                  eq_refl i r Hin) " ATLANTA " eq_refl Hne).
Defined.

(** X3. Every listing that [search] returns has the flag true for each of
    [section8], [hud_approved], [low_income_only], [needs_transit] and
    [pets_allowed] that the call sets. *)
Theorem search_flags `{L : Library} {S : LibrarySpec L}
    (df : DataFrame) (a : search_args) (out : DataFrame) :
  search df a = Ok out ->
  forall i r, In (i, r) (rows out) ->
    (section8 a = true -> cell "section8_accepted" r = PyBool true)
    /\ (hud_approved a = true -> cell "hud_approved" r = PyBool true)
    /\ (low_income_only a = true -> cell "low_income_eligible" r = PyBool true)
    /\ (needs_transit a = true -> cell "nearby_transit" r = PyBool true)
    /\ (pets_allowed a = true -> cell "pets_allowed" r = PyBool true).
Proof.
  intros Hs i r Hin.
  assert (Hflag : forall c, In (on_column c flag_test) (active_filters a) ->
                            c <> "score" -> cell c r = PyBool true).
  { intros c Hf Hc.
    pose proof (search_rows_pass _ _ _ _ _ _ _ Hs Hin Hf Hc) as H.
    unfold flag_test in H. destruct (cell c r) as [|[]| | |]; try discriminate.
    reflexivity. }
  repeat split; intros H; apply Hflag; try discriminate; in_active H.
Qed.

Lemma search_flags_witness :
  section8 two_beds_atlanta_s8 = true
  /\ exists out,
       @search sample_library sample_frame two_beds_atlanta_s8 = Ok out
       /\ map fst (rows out) = [0; 1]%nat
       /\ forall i r, In (i, r) (rows out) -> cell "section8_accepted" r = PyBool true.
Proof.
  split; [reflexivity|].
  eexists. split; [reflexivity|]. split; [reflexivity|].
  intros i r Hin.
  exact (proj1 (@search_flags sample_library sample_library_spec
                  sample_frame two_beds_atlanta_s8 _ eq_refl i r Hin) eq_refl).
Defined.

(** ** Loading, row by row *)

Lemma fold_map_column_rows (f : pyval -> pyval) cs df :
  rows (fold_left (fun df col => if has_column col df then map_column col f df else df)
                  cs df)
  = map (fun ir => (ir.1,
                    fold_left (fun r col =>
                                 if PyStr.in_strs col (columns df)
                                 then <[col := f (cell col r)]> r else r)
                              cs ir.2))
        (rows df).
Proof.
  revert df. induction cs as [|c cs IH]; intros df; simpl.
  - rewrite <- (map_id (rows df)) at 1. apply map_ext. now intros [i r].
  - rewrite IH. unfold has_column.
    destruct (PyStr.in_strs c (columns df)) eqn:E; simpl.
    + rewrite map_map. apply map_ext. intros [i r]. simpl. reflexivity.
    + reflexivity.
Qed.

Lemma load_rows `{L : Library} input df :
  _load_data input = Ok df ->
  exists raw, input = Ok raw
    /\ columns df = columns raw
    /\ rows df = map (fun ir => (ir.1, load_row (columns raw) ir.2)) (rows raw).
Proof.
  intros H0. destruct (load_columns _ _ H0) as (raw & -> & Hc & Hr & Hb).
  exists raw. split; [reflexivity|]. split; [assumption|].
  unfold _load_data, mbind, result_bind, mret, result_ret, assign_from in H0.
  set (parsed := fold_left _ bool_columns raw) in H0.
  assert (Hcp : columns parsed = columns raw) by apply fold_map_column_columns.
  assert (H1 : has_column "monthly_rent" parsed = true)
    by (unfold has_column in *; now rewrite Hcp).
  rewrite H1 in H0.
  assert (H2 : forall f, has_column "bedrooms" (map_column "monthly_rent" f parsed) = true)
    by (intros f; unfold has_column in *; simpl; now rewrite Hcp).
  rewrite H2 in H0. injection H0 as <-.
  unfold map_column at 1. simpl. rewrite map_map.
  subst parsed. rewrite fold_map_column_rows, map_map.
  apply map_ext. intros [i r]. reflexivity.
Qed.

Lemma in_strs_false_iff k cs : PyStr.in_strs k cs = false <-> ~ In k cs.
Proof.
  rewrite <- PyStrFacts.in_strs_In. destruct (PyStr.in_strs k cs); split; congruence.
Qed.

Lemma fold_insert_lookup (f : pyval -> pyval) cols cs (r : row) k :
  List.NoDup cs ->
  fold_left (fun r col => if PyStr.in_strs col cols then <[col := f (cell col r)]> r else r)
            cs r !! k
  = if PyStr.in_strs k cs && PyStr.in_strs k cols then Some (f (cell k r)) else r !! k.
Proof.
  intros Hnd. revert r. induction Hnd as [|c cs Hc Hnd IH]; intros r; [reflexivity|].
  cbn [fold_left]. rewrite IH.
  change (PyStr.in_strs k (c :: cs)) with (String.eqb k c || PyStr.in_strs k cs).
  destruct (String.eqb_spec k c) as [->|Hne].
  - apply in_strs_false_iff in Hc. rewrite Hc. simpl.
    destruct (PyStr.in_strs c cols); [now rewrite lookup_insert_eq|reflexivity].
  - simpl.
    assert (Hl : forall v, (<[c := v]> r : row) !! k = r !! k)
      by (intros v; apply lookup_insert_ne; congruence).
    destruct (PyStr.in_strs c cols); [|reflexivity].
    unfold cell. now rewrite Hl.
Qed.

Lemma bool_columns_nodup : List.NoDup bool_columns.
Proof.
  unfold bool_columns.
  repeat (constructor;
          [simpl; intros H; repeat (destruct H as [H|H]; [discriminate H|]); exact H|]).
  constructor.
Qed.

Lemma parsed_flags_lookup cols (r : row) k :
  fold_left (fun r col =>
               if PyStr.in_strs col cols
               then <[col := PyBool (_parse_bool (cell col r))]> r else r)
            bool_columns r !! k
  = if PyStr.in_strs k bool_columns && PyStr.in_strs k cols
    then Some (PyBool (_parse_bool (cell k r))) else r !! k.
Proof.
  exact (fold_insert_lookup (fun v => PyBool (_parse_bool v)) cols bool_columns r k
           bool_columns_nodup).
Qed.

Lemma load_row_bedrooms `{L : Library} cols r :
  load_row cols r !! "bedrooms"
  = Some (PyInt (fillna0_astype_int (to_numeric (cell "bedrooms" r)))).
Proof.
  unfold load_row. rewrite lookup_insert_eq. do 3 f_equal. unfold cell.
  rewrite lookup_insert_ne by discriminate.
  now rewrite parsed_flags_lookup.
Qed.

Lemma load_row_monthly_rent `{L : Library} cols r :
  load_row cols r !! "monthly_rent"
  = Some (PyFloat (to_numeric (cell "monthly_rent" r))).
Proof.
  unfold load_row. rewrite lookup_insert_ne by discriminate.
  rewrite lookup_insert_eq. do 3 f_equal. unfold cell.
  now rewrite parsed_flags_lookup.
Qed.

Lemma load_row_flag `{L : Library} cols r c :
  In c bool_columns ->
  load_row cols r !! c
  = if PyStr.in_strs c cols then Some (PyBool (_parse_bool (cell c r))) else r !! c.
Proof.
  intros Hc. unfold load_row.
  assert (c <> "bedrooms" /\ c <> "monthly_rent") as [Hb Hr].
  { simpl in Hc. repeat destruct Hc as [<-|Hc]; try (split; discriminate). destruct Hc. }
  rewrite !lookup_insert_ne by congruence.
  rewrite parsed_flags_lookup.
  apply PyStrFacts.in_strs_In in Hc. now rewrite Hc.
Qed.

Lemma load_row_other `{L : Library} cols r k :
  ~ In k bool_columns -> k <> "monthly_rent" -> k <> "bedrooms" ->
  load_row cols r !! k = r !! k.
Proof.
  intros Hk Hr Hb. unfold load_row.
  rewrite !lookup_insert_ne by congruence.
  rewrite parsed_flags_lookup.
  apply in_strs_false_iff in Hk. now rewrite Hk.
Qed.

Lemma load_ok `{L : Library} raw :
  has_column "monthly_rent" raw = true -> has_column "bedrooms" raw = true ->
  exists df, _load_data (Ok raw) = Ok df.
Proof.
  intros Hr Hb.
  unfold _load_data, mbind, result_bind, mret, result_ret, assign_from.
  set (parsed := fold_left _ bool_columns raw).
  assert (Hcp : columns parsed = columns raw) by apply fold_map_column_columns.
  assert (H1 : has_column "monthly_rent" parsed = true)
    by (unfold has_column in *; now rewrite Hcp).
  rewrite H1.
  assert (H2 : forall f, has_column "bedrooms" (map_column "monthly_rent" f parsed) = true)
    by (intros f; unfold has_column in *; simpl; now rewrite Hcp).
  rewrite H2. eauto.
Qed.

Lemma trunc_inject_Z z : fillna0_astype_int (FNum (inject_Z z)) = z.
Proof.
  unfold fillna0_astype_int. destruct (Qle_bool 0 (inject_Z z)).
  - apply Qfloor_Z.
  - apply Qceiling_Z.
Qed.

Lemma load_row_idempotent `{L : Library} cols r :
  load_row cols (load_row cols r) = load_row cols r.
Proof.
  apply map_eq. intros k.
  destruct (string_dec k "bedrooms") as [->|Hb].
  { rewrite !load_row_bedrooms. unfold cell at 1. rewrite load_row_bedrooms.
    cbn [from_option id to_numeric]. now rewrite trunc_inject_Z. }
  destruct (string_dec k "monthly_rent") as [->|Hr].
  { rewrite !load_row_monthly_rent. unfold cell at 1. rewrite load_row_monthly_rent.
    reflexivity. }
  destruct (in_dec string_dec k bool_columns) as [Hin|Hnin].
  - rewrite !load_row_flag by assumption.
    destruct (PyStr.in_strs k cols) eqn:E; [|reflexivity].
    unfold cell at 1. rewrite load_row_flag by assumption. rewrite E. reflexivity.
  - now rewrite !load_row_other.
Qed.

(** X4. [_load_data] keeps the column labels and the index. In every row
    the [monthly_rent] cell holds the number that [to_numeric] reads off
    the source cell (no number when it is unreadable), the [bedrooms] cell
    is an integer, 0 for an unreadable cell and otherwise the number
    truncated towards zero, as long as that number lies within the range
    of an int64, each boolean column that is present holds the native
    boolean that [_parse_bool] gives, and every other cell is as it
    was. *)
Theorem load_normalises `{L : Library} (input : result DataFrame) (df : DataFrame) :
  _load_data input = Ok df ->
  exists raw,
    input = Ok raw
    /\ columns df = columns raw
    /\ map fst (rows df) = map fst (rows raw)
    /\ Forall2
         (fun ir jr =>
            (is_Some (jr.2 !! "monthly_rent")
             /\ num_of (cell "monthly_rent" jr.2)
                = num_of (PyFloat (to_numeric (cell "monthly_rent" ir.2))))
            /\ (int64_range (to_numeric (cell "bedrooms" ir.2)) = true ->
                jr.2 !! "bedrooms"
                = Some (PyInt (fillna0_astype_int (to_numeric (cell "bedrooms" ir.2)))))
            /\ (forall c, In c bool_columns ->
                  jr.2 !! c = if has_column c raw
                              then Some (PyBool (_parse_bool (cell c ir.2)))
                              else ir.2 !! c)
            /\ (forall k, ~ In k bool_columns -> k <> "monthly_rent" -> k <> "bedrooms" ->
                  jr.2 !! k = ir.2 !! k))
         (rows raw) (rows df).
Proof.
  intros H0. destruct (load_rows _ _ H0) as (raw & -> & Hc & Hrows).
  exists raw. split; [reflexivity|]. split; [assumption|]. rewrite Hrows. split.
  - rewrite map_map. apply map_ext. now intros [i r].
  - clear Hrows H0. induction (rows raw) as [|[i r] l IH]; simpl; constructor; [|exact IH].
    simpl. split.
    { unfold cell at 1. rewrite load_row_monthly_rent. split; [eauto|reflexivity]. }
    split; [intros _; apply load_row_bedrooms|].
    split; [intros c Hin; now apply load_row_flag|].
    intros k; apply load_row_other.
Qed.

Lemma load_normalises_witness :
  exists df,
    @_load_data sample_library (Ok sample_frame) = Ok df
    /\ columns df = sample_columns
    /\ map fst (rows df) = [0; 1; 2]%nat
    /\ map (fun ir => num_of (cell "monthly_rent" ir.2)) (rows df)
       = [Some 900%Q; Some 900%Q; Some 600%Q]
    /\ map (fun ir => ir.2 !! "bedrooms") (rows df)
       = [Some (PyInt 2); Some (PyInt 2); Some (PyInt 1)]
    /\ map (fun ir => ir.2 !! "section8_accepted") (rows df)
       = [Some (PyBool true); Some (PyBool true); Some (PyBool false)].
Proof.
  eexists. split; [reflexivity|].
  destruct (@load_normalises sample_library (Ok sample_frame) _ eq_refl)
    as (raw & Hraw & _).
  split; [reflexivity|]. split; [reflexivity|]. split; [reflexivity|].
  split; reflexivity.
Defined.

(** X5. Loading is idempotent: a frame that [_load_data] produced is
    loaded again to itself. *)
Theorem load_idempotent `{L : Library} (input : result DataFrame) (df : DataFrame) :
  _load_data input = Ok df -> _load_data (Ok df) = Ok df.
Proof.
  intros H0. destruct (load_rows _ _ H0) as (raw & -> & Hc & Hrows).
  destruct (load_columns _ _ H0) as (raw' & [= <-] & _ & Hr & Hb).
  assert (Hr' : has_column "monthly_rent" df = true) by (unfold has_column in *; now rewrite Hc).
  assert (Hb' : has_column "bedrooms" df = true) by (unfold has_column in *; now rewrite Hc).
  destruct (load_ok df Hr' Hb') as (df' & H1). rewrite H1. f_equal.
  destruct (load_rows _ _ H1) as (df0 & [= <-] & Hc' & Hrows').
  destruct df as [cols rs], df' as [cols' rs']. simpl in *. subst cols' cols.
  f_equal. rewrite Hrows', Hrows, map_map. apply map_ext. intros [i r]. simpl.
  now rewrite load_row_idempotent.
Qed.

Lemma load_idempotent_witness :
  exists df,
    @_load_data sample_library (Ok sample_frame) = Ok df
    /\ @_load_data sample_library (Ok df) = Ok df.
Proof.
  eexists. split; [reflexivity|].
  apply (@load_idempotent sample_library (Ok sample_frame)). reflexivity.
Defined.

(** ** How many rows a search returns, and when it succeeds *)

Lemma traverse_succeeds {A B : Type} (f : A -> result B) (l : list A) :
  (forall x, In x l -> exists y, f x = Ok y) -> exists l', traverse f l = Ok l'.
Proof.
  induction l as [|x l IH]; intros H; simpl; [eauto|].
  destruct (H x (or_introl eq_refl)) as (y & ->).
  destruct IH as (l' & ->); [intros z Hz; apply H; now right|]. simpl. eauto.
Qed.

Lemma Forall2_in_l {A B : Type} (P : A -> B -> Prop) l l' x :
  Forall2 P l l' -> In x l -> exists y, In y l' /\ P x y.
Proof.
  induction 1 as [|a b l l' Hab _ IH]; simpl; [tauto|].
  intros [<-|Hx]; [eauto|]. destruct (IH Hx) as (y & Hy & HP). eauto.
Qed.

Lemma Forall2_same_length {A B : Type} (P : A -> B -> Prop) l l' :
  Forall2 P l l' -> length l = length l'.
Proof. induction 1; simpl; congruence. Qed.

Lemma search_with_shape `{L : Library} score df a out :
  search_with score df a = Ok out ->
  exists res, filtering a df = Ok res
    /\ ((empty res = true /\ out = res)
        \/ (empty res = false
            /\ exists scored cols,
                 Forall2 (scored_from score) (rows res) scored
                 /\ out = head (top_n a) (mkDF cols (sort_values_desc score_key scored)))).
Proof.
  unfold search_with. intros H0. apply bind_ok in H0 as (res & Hf & H0).
  exists res. split; [assumption|].
  destruct (empty res); [left; split; congruence|right; split; [reflexivity|]].
  apply bind_ok in H0 as (sc & Hs & H0). injection H0 as <-.
  unfold add_scores in Hs. apply bind_ok in Hs as (scored & Ht & Hs). injection Hs as <-.
  exists scored. eexists. split; [|reflexivity].
  apply traverse_ok in Ht. eapply Forall2_impl; [exact Ht|].
  intros ir jr Hx. apply bind_ok in Hx as (s & Hs & Hx). injection Hx as <-. now exists s.
Qed.

Lemma head_length n df :
  length (rows (head n df))
  = if (0 <=? n)%Z then Nat.min (Z.to_nat n) (length (rows df))
    else (length (rows df) - Z.to_nat (- n))%nat.
Proof.
  unfold head. simpl. destruct (0 <=? n)%Z; rewrite List.length_firstn; lia.
Qed.

(** X6. On a loaded dataset, [search] returns min(top_n, number of matching
    rows) rows for [top_n >= 0], and all but the last [-top_n] of the
    matching rows in score order for a negative [top_n]; when [top_n] is at
    least the number of matches, no matching row is left out. *)
Theorem search_result_count `{L : Library} {S : LibrarySpec L}
    (input : result DataFrame) (df : DataFrame) (a : search_args) (out : DataFrame) :
  _load_data input = Ok df ->
  search df a = Ok out ->
  length (rows out)
  = (if (0 <=? top_n a)%Z
     then Nat.min (Z.to_nat (top_n a)) (length (matching_rows a df))
     else (length (matching_rows a df) - Z.to_nat (- top_n a))%nat)
  /\ ((length (matching_rows a df) <= Z.to_nat (top_n a))%nat ->
      forall i r0, In (i, r0) (matching_rows a df) -> exists r, In (i, r) (rows out)).
Proof.
  intros Hl Hs. unfold matching_rows.
  apply search_with_shape in Hs as (res & Hf & Hcase).
  rewrite filtering_active in Hf.
  pose proof Hf as Hres. apply run_filters_ok in Hres as [_ Hres].
  assert (Hm : rows res = List.filter (keep_all (active_filters a)) (rows df))
    by (rewrite Hres; reflexivity).
  rewrite <- Hm.
  destruct Hcase as [[He ->]|(_ & scored & cols & Hsc & ->)].
  - rewrite (loaded_not_empty _ _ _ _ Hl Hf He). simpl.
    split; [destruct (0 <=? top_n a)%Z; lia|]. intros _ i r0 [].
  - pose proof (Forall2_same_length _ _ _ Hsc) as Hlen.
    pose proof (Permutation_length (sort_values_perm score_key scored)) as Hp.
    rewrite head_length. simpl. rewrite Hp, <- Hlen. split; [reflexivity|].
    intros Hle i r0 Hin.
    destruct (Forall2_in_l _ _ _ _ Hsc Hin) as (jr & Hj & s & _ & ->). simpl.
    exists (<["score" := PyFloat (FNum s)]> r0).
    unfold head. simpl.
    assert (H0 : (0 <=? top_n a)%Z = true).
    { apply Z.leb_le. destruct (top_n a); try lia.
      simpl in Hle. destruct (rows res); [destruct Hin|simpl in Hle; lia]. }
    rewrite H0, firstn_all2 by lia.
    eapply Permutation_in; [symmetry; apply sort_values_perm|exact Hj].
Qed.

Lemma search_result_count_witness :
  exists df out,
    @_load_data sample_library (Ok sample_frame) = Ok df
    /\ @search sample_library df top_two = Ok out
    /\ length (@matching_rows sample_library top_two df) = 3%nat
    /\ length (rows out) = 2%nat.
Proof.
  eexists. eexists. split; [reflexivity|]. split; [reflexivity|]. split; [reflexivity|].
  destruct (@search_result_count sample_library sample_library_spec
              (Ok sample_frame) _ top_two _ eq_refl eq_refl) as [H _].
  rewrite H. reflexivity.
Defined.

Lemma loaded_rows_float_rent `{L : Library} input df i r :
  _load_data input = Ok df -> In (i, r) (rows df) ->
  exists f, r !! "monthly_rent" = Some (PyFloat f).
Proof.
  intros Hl Hin. destruct (load_rows _ _ Hl) as (raw & _ & _ & Hrows).
  rewrite Hrows in Hin. apply in_map_iff in Hin as ([i0 r0] & [= <- <-] & _).
  rewrite load_row_monthly_rent. eauto.
Qed.

Lemma score_of_float_rent `{L : Library} (r : row) f :
  r !! "monthly_rent" = Some (PyFloat f) -> exists s, _score_listing r = Ok s.
Proof.
  intros Hv. unfold _score_listing, getitem. rewrite Hv.
  cbn [mbind result_bind mret result_ret float_overflows]. eauto.
Qed.

Lemma run_filters_raise fs df f e :
  In f fs -> guard f (columns df) = Some e -> exists e', run_filters fs df = Raise e'.
Proof.
  intros Hin Hg. destruct (run_filters fs df) as [out|e'] eqn:E; [|eauto].
  apply run_filters_ok in E as [Hall _]. rewrite (Hall f Hin) in Hg. discriminate.
Qed.

(** X7. On a loaded dataset [search] fails only while it filters. Whenever
    the filters run through, [search] returns a result: scoring, sorting
    and cutting never raise, since loading leaves every row a rent that
    [float] reads. And when an active filter reads a column that the
    dataset lacks, or the language pattern does not compile, [search]
    raises. *)
Theorem search_fails_only_in_filtering `{L : Library}
    (input : result DataFrame) (df : DataFrame) (a : search_args) :
  _load_data input = Ok df ->
  (forall res, filtering a df = Ok res -> exists out, search df a = Ok out)
  /\ (forall f e, In f (active_filters a) -> guard f (columns df) = Some e ->
        exists e', search df a = Raise e').
Proof.
  intros Hl. split.
  - intros res Hf. unfold search, search_with. rewrite Hf.
    cbn [mbind result_bind].
    destruct (empty res); [eauto|].
    unfold add_scores.
    destruct (traverse_succeeds
                (fun ir => s ← _score_listing ir.2;
                           mret (ir.1, <["score" := PyFloat (FNum s)]> ir.2))
                (rows res)) as (scored & ->).
    + intros [i r] Hin. simpl in Hin.
      rewrite filtering_active in Hf. apply run_filters_ok in Hf as [_ ->].
      simpl in Hin. apply filter_In in Hin as [Hin _].
      destruct (loaded_rows_float_rent _ _ _ _ Hl Hin) as (v & Hv).
      destruct (score_of_float_rent r v Hv) as (s & Hs).
      cbn [fst snd]. rewrite Hs.
      cbn [mbind result_bind mret result_ret]. eauto.
    + cbn [mbind result_bind mret result_ret]. eauto.
  - intros f e Hin Hg. unfold search, search_with. rewrite filtering_active.
    destruct (run_filters_raise _ _ _ _ Hin Hg) as (e' & ->).
    cbn [mbind result_bind]. eauto.
Qed.

Lemma search_fails_only_in_filtering_witness :
  exists df,
    @_load_data sample_library (Ok sample_frame) = Ok df
    /\ (exists out, @search sample_library df rent_and_section8 = Ok out)
    /\ (exists e', @search sample_library df hud_only = Raise e').
Proof.
  eexists. split; [reflexivity|].
  destruct (@search_fails_only_in_filtering sample_library
              (Ok sample_frame) _ rent_and_section8 eq_refl) as [Hok _].
  destruct (@search_fails_only_in_filtering sample_library
              (Ok sample_frame) _ hud_only eq_refl) as [_ Hraise].
  split.
  - eapply Hok. reflexivity.
  - apply (Hraise (on_column "hud_approved" flag_test) (KeyError "hud_approved")).
    + left. reflexivity.
    + reflexivity.
Defined.

(** ** Scores *)

Lemma round_half_even_bounds (x : Q) :
  (Qfloor x <= round_half_even x <= Qfloor x + 1)%Z.
Proof. unfold round_half_even. repeat case_match; lia. Qed.

Lemma twice_frac_zero (x : Q) :
  (Qfloor (2 * (x - inject_Z (Qfloor x))) =? 0)%Z = true
  <-> (2 * (x - inject_Z (Qfloor x)) < 1)%Q.
Proof.
  pose proof (Qfloor_le x) as Hlo.
  set (d := (2 * (x - inject_Z (Qfloor x)))%Q) in *.
  assert (H0 : (0 <= d)%Q) by (subst d; lra).
  pose proof (Qfloor_le d) as H1. pose proof (Qlt_floor d) as H2.
  rewrite Z.eqb_eq. split.
  - intros E. rewrite E in H2. exact H2.
  - intros Hlt.
    assert (Ha : (0 <= Qfloor d)%Z).
    { apply (Qfloor_resp_le 0 d) in H0. exact H0. }
    assert (Hb : (Qfloor d < 1)%Z).
    { rewrite Zlt_Qlt. eapply Qle_lt_trans; [exact H1|exact Hlt]. }
    lia.
Qed.

Lemma round_half_even_mono (x y : Q) :
  (x <= y)%Q -> (round_half_even x <= round_half_even y)%Z.
Proof.
  intros Hxy.
  pose proof (Qfloor_resp_le _ _ Hxy) as Hf.
  pose proof (round_half_even_bounds x) as Bx.
  pose proof (round_half_even_bounds y) as By.
  destruct (Z.eq_dec (Qfloor x) (Qfloor y)) as [E|E]; [|lia].
  unfold round_half_even. rewrite <- E.
  set (f := Qfloor x) in *.
  assert (Hd : (2 * (x - inject_Z f) <= 2 * (y - inject_Z f))%Q) by lra.
  pose proof (twice_frac_zero x) as Tx. pose proof (twice_frac_zero y) as Ty.
  fold f in Tx. rewrite <- E in Ty.
  destruct (Qfloor (2 * (x - inject_Z f)) =? 0)%Z eqn:Zx.
  - repeat case_match; lia.
  - assert (Hx1 : ~ (2 * (x - inject_Z f) < 1)%Q) by (rewrite <- Tx; congruence).
    destruct (Qfloor (2 * (y - inject_Z f)) =? 0)%Z eqn:Zy.
    + exfalso. apply Hx1. eapply Qle_lt_trans; [exact Hd|]. now apply Ty.
    + destruct (Qeq_bool (2 * (x - inject_Z f)) 1) eqn:Ex;
        destruct (Qeq_bool (2 * (y - inject_Z f)) 1) eqn:Ey; try lia.
      * destruct (Z.even f); lia.
      * exfalso. apply Qeq_bool_iff in Ey. apply Qeq_bool_neq in Ex. lra.
Qed.

Lemma round2_mono (x y : Q) : (x <= y)%Q -> (round2 x <= round2 y)%Q.
Proof.
  intros Hxy. unfold round2.
  assert (H : (round_half_even (x * 100) <= round_half_even (y * 100))%Z)
    by (apply round_half_even_mono; lra).
  rewrite Zle_Qle in H. unfold Qdiv. change (/ 100)%Q with (1 # 100)%Q. lra.
Qed.

Lemma round2_nonneg (x : Q) : (0 <= x)%Q -> (0 <= round2 x)%Q.
Proof.
  intros Hx. unfold round2.
  assert (H : (0 <= round_half_even (x * 100))%Z).
  { pose proof (round_half_even_bounds (x * 100)) as B.
    assert (H0 : (0 <= x * 100)%Q) by lra.
    apply (Qfloor_resp_le 0) in H0. change (Qfloor 0) with 0%Z in H0. lia. }
  rewrite Zle_Qle in H. change (inject_Z 0) with 0%Q in H.
  unfold Qdiv. change (/ 100)%Q with (1 # 100)%Q. lra.
Qed.

Lemma max0_nonneg (x : Q) : (0 <= max0 x)%Q.
Proof.
  unfold max0. destruct (Qle_bool x 0) eqn:E; [lra|].
  assert (~ (x <= 0)%Q) by (rewrite <- Qle_bool_iff; congruence). lra.
Qed.

Lemma max0_mono (x y : Q) : (x <= y)%Q -> (max0 x <= max0 y)%Q.
Proof.
  intros Hxy. unfold max0.
  destruct (Qle_bool x 0) eqn:Ex, (Qle_bool y 0) eqn:Ey; try lra.
  - assert (~ (y <= 0)%Q) by (rewrite <- Qle_bool_iff; congruence). lra.
  - apply Qle_bool_iff in Ey.
    assert (~ (x <= 0)%Q) by (rewrite <- Qle_bool_iff; congruence). lra.
Qed.

Lemma bonuses_insert_rent `{L : Library} (r : row) v :
  bonuses (<["monthly_rent" := v]> r) = bonuses r.
Proof.
  unfold bonuses, get_truthy. now rewrite !lookup_insert_ne by discriminate.
Qed.

Lemma affordability_nonneg `{L : Library} v : (0 <= affordability v)%Q.
Proof.
  unfold affordability. destruct (py_float v) as [[|q]|]; try lra. apply max0_nonneg.
Qed.

(** X8. The score rewards lower rents: of two listings that differ only in
    rent, the one with the lower rent scores at least as high. *)
Theorem score_rewards_lower_rent `{L : Library} (r : row) (q1 q2 : Q) :
  (q1 <= q2)%Q ->
  exists s1 s2,
    _score_listing (<["monthly_rent" := PyFloat (FNum q1)]> r) = Ok s1
    /\ _score_listing (<["monthly_rent" := PyFloat (FNum q2)]> r) = Ok s2
    /\ (s2 <= s1)%Q.
Proof.
  intros Hq. unfold _score_listing, getitem. rewrite !lookup_insert_eq.
  cbn [mbind result_bind mret result_ret float_overflows]. rewrite !bonuses_insert_rent.
  eexists. eexists. split; [reflexivity|]. split; [reflexivity|].
  apply round2_mono.
  assert (H : (affordability (PyFloat (FNum q2)) <= affordability (PyFloat (FNum q1)))%Q).
  { unfold affordability. cbn [py_float]. apply max0_mono.
    unfold Qdiv. change (/ 30)%Q with (1 # 30)%Q. lra. }
  lra.
Qed.

Lemma score_rewards_lower_rent_witness :
  (600 <= 900)%Q
  /\ exists s1 s2,
       @_score_listing sample_library
         (<["monthly_rent" := PyFloat (FNum 600)]> cheap_row) = Ok s1
       /\ @_score_listing sample_library
            (<["monthly_rent" := PyFloat (FNum 900)]> cheap_row) = Ok s2
       /\ (s2 <= s1)%Q.
Proof.
  assert (H : (600 <= 900)%Q) by (vm_compute; discriminate).
  split; [exact H|].
  exact (@score_rewards_lower_rent sample_library cheap_row 600 900 H).
Defined.

(** X9. The affordability term is never negative, and it is zero exactly
    when the rent is unreadable, NaN, or at least 1200. *)
Theorem affordability_zero_from_1200 `{L : Library} (v : pyval) :
  (0 <= affordability v)%Q
  /\ ((affordability v == 0)%Q
      <-> py_float v = None \/ py_float v = Some FNaN
          \/ exists q, py_float v = Some (FNum q) /\ (1200 <= q)%Q).
Proof.
  split; [apply affordability_nonneg|].
  unfold affordability. destruct (py_float v) as [[|q]|].
  - split; [auto|reflexivity].
  - unfold max0. destruct (Qle_bool (40 - q / 30) 0) eqn:E.
    + apply Qle_bool_iff in E. split; [|reflexivity]. intros _. right. right.
      exists q. split; [reflexivity|].
      unfold Qdiv in E. change (/ 30)%Q with (1 # 30)%Q in E. lra.
    + assert (Hn : ~ (40 - q / 30 <= 0)%Q) by (rewrite <- Qle_bool_iff; congruence).
      unfold Qdiv in *. change (/ 30)%Q with (1 # 30)%Q in *. split.
      * intros H. lra.
      * intros [[=]|[[=]|(q' & [= <-] & Hq)]]. lra.
  - split; [auto|reflexivity].
Qed.

(** X10. [_score_listing] raises [KeyError "monthly_rent"] on a row without
    that key, and [OverflowError] on a row whose rent is an int beyond the
    doubles, which the [except] clause does not catch; on every other row
    it returns a score, and the score is not negative. *)
Theorem score_defined_and_not_negative `{L : Library} (r : row) :
  match r !! "monthly_rent" with
  | Some v =>
      if float_overflows v then _score_listing r = Raise OverflowError
      else exists s, _score_listing r = Ok s /\ (0 <= s)%Q
  | None => _score_listing r = Raise (KeyError "monthly_rent")
  end.
Proof.
  unfold _score_listing, getitem. destruct (r !! "monthly_rent") as [v|]; [|reflexivity].
  cbn [mbind result_bind mret result_ret].
  destruct (float_overflows v); [reflexivity|].
  eexists. split; [reflexivity|].
  apply round2_nonneg.
  pose proof (affordability_nonneg v). pose proof (bonuses_range r). lra.
Qed.

(** ** The values that a parsed query carries *)

Lemma digit_value (c : ascii) :
  PyStr.isdigit c = true -> (0 <= Z.of_nat (nat_of_ascii c - 48) <= 9)%Z.
Proof.
  unfold PyStr.isdigit. intros [H1 H2]%andb_prop.
  apply Nat.leb_le in H1, H2. lia.
Qed.

Lemma int_digits_bound s acc n :
  int_digits acc s = Ok n -> (0 <= acc)%Z ->
  (acc * 10 ^ Z.of_nat (String.length s) <= n
   < (acc + 1) * 10 ^ Z.of_nat (String.length s))%Z.
Proof.
  revert acc. induction s as [|c s IH]; intros acc H Hacc.
  - injection H as <-. simpl. lia.
  - cbn [int_digits] in H. destruct (PyStr.isdigit c) eqn:Hc; [|discriminate].
    pose proof (digit_value c Hc) as Hd.
    apply IH in H; [|lia].
    change (String.length (String c s)) with (S (String.length s)).
    rewrite Nat2Z.inj_succ, Z.pow_succ_r by lia.
    set (p := (10 ^ Z.of_nat (String.length s))%Z) in *.
    assert (0 < p)%Z by (subst p; apply Z.pow_pos_nonneg; lia).
    nia.
Qed.

Lemma py_int_bound g n : py_int g = Ok n -> (0 <= n < 10 ^ Z.of_nat (String.length g))%Z.
Proof.
  unfold py_int. destruct g as [|c g]; [discriminate|].
  intros H. apply int_digits_bound in H; lia.
Qed.

Lemma digits34_length s g : digits34 s = Some g -> (String.length g <= 4)%nat.
Proof.
  unfold digits34.
  destruct (digits_then_boundary 4 s) eqn:E4.
  - intros [= <-]. apply digits_then_boundary_digits in E4 as [_ ->]. lia.
  - intros E3. apply digits_then_boundary_digits in E3 as [_ ->]. lia.
Qed.

Lemma rent_at_length prev s g : rent_at prev s = Some g -> (String.length g <= 4)%nat.
Proof.
  unfold rent_at. intros E.
  destruct s as [|c s].
  - destruct (boundary_before prev); [|discriminate]. now apply digits34_length in E.
  - destruct (Ascii.eqb c "$") eqn:Hc.
    + apply Ascii.eqb_eq in Hc as ->. now apply digits34_length in E.
    + assert (E' : (if boundary_before prev then digits34 (String c s) else None) = Some g).
      { destruct c as [[] [] [] [] [] [] [] []]; try exact E; discriminate Hc. }
      destruct (boundary_before prev); [|discriminate].
      now apply digits34_length in E'.
Qed.

Lemma rent_search_length prev s g : rent_search prev s = Some g -> (String.length g <= 4)%nat.
Proof.
  revert prev. induction s as [|c s IH]; intros prev.
  - change (rent_search prev "") with
      (match rent_at prev "" with Some g => Some g | None => None end).
    destruct (rent_at prev "") eqn:E; [|discriminate].
    intros [= <-]. eapply rent_at_length, E.
  - change (rent_search prev (String c s)) with
      (match rent_at prev (String c s) with
       | Some g => Some g
       | None => rent_search (Some c) s
       end).
    destruct (rent_at prev (String c s)) eqn:E.
    + intros [= <-]. eapply rent_at_length, E.
    + apply IH.
Qed.

Lemma bed_search_length s g : bed_search s = Some g -> String.length g = 1%nat.
Proof.
  induction s as [|c s IH]; [discriminate|].
  change (bed_search (String c s)) with
    (match bed_at (String c s) with Some g => Some g | None => bed_search s end).
  destruct (bed_at (String c s)) eqn:E; [|apply IH].
  intros [= <-]. unfold bed_at in E.
  destruct (PyStr.isdigit c && _); [|discriminate]. now injection E as <-.
Qed.

Lemma rent_value_range prev s g n :
  rent_search prev s = Some g -> py_int g = Ok n -> (0 <= n <= 9999)%Z.
Proof.
  intros Hg Hn. apply rent_search_length in Hg. apply py_int_bound in Hn.
  assert (10 ^ Z.of_nat (String.length g) <= 10 ^ 4)%Z
    by (apply Z.pow_le_mono_r; lia).
  lia.
Qed.

Lemma bed_value_range s g n :
  bed_search s = Some g -> py_int g = Ok n -> (0 <= n <= 9)%Z.
Proof.
  intros Hg Hn. apply bed_search_length in Hg. apply py_int_bound in Hn.
  rewrite Hg in Hn. change (10 ^ Z.of_nat 1)%Z with 10%Z in Hn. lia.
Qed.

Ltac if_some H :=
  match type of H with
  | (if ?b then _ else _) = _ => destruct b; [|discriminate H]
  end.

Ltac parsed_value :=
  let H := fresh "H" in
  lookups; intros H;
  first
    [ discriminate H
    | injection H as <-; eexists; split; [reflexivity|assumption]
    | if_some H; injection H as <-; reflexivity
    | match type of H with
      | match find ?p ?l with _ => _ end = _ =>
          let F := fresh "F" in
          destruct (find p l) eqn:F; [|discriminate H];
          injection H as <-; apply find_some in F as [F _];
          eexists; split; [exact F|reflexivity]
      end ].

(** X11. What [parse_query] puts under each key: [max_rent] is an integer
    from 0 to 9999, [min_bedrooms] one from 0 to 9, [city] the title-cased
    name of a known city, [state] is "GA", [language] a canonical name of
    the alias table, and every flag is [True]. *)
Theorem parse_query_values (query : string) :
  exists params,
    parse_query query = Ok params
    /\ (forall v, params !! "max_rent" = Some v ->
        exists n, v = PyInt n /\ (0 <= n <= 9999)%Z)
    /\ (forall v, params !! "min_bedrooms" = Some v ->
        exists n, v = PyInt n /\ (0 <= n <= 9)%Z)
    /\ (forall v, params !! "city" = Some v ->
        exists c, In c cities /\ v = PyStr (PyStr.title c))
    /\ (forall v, params !! "state" = Some v -> v = PyStr "GA")
    /\ (forall v, params !! "language" = Some v ->
        exists kv, In kv LANGUAGE_ALIASES /\ v = PyStr kv.2)
    /\ (forall k v, In k flag_keys -> params !! k = Some v -> v = PyBool true).
Proof.
  unfold parse_query.
  set (q := PyStr.lower query).
  destruct (rent_search None q) as [g1|] eqn:R;
    [destruct (rent_search_numeral _ _ _ R) as (n1 & Hn1);
     pose proof (rent_value_range _ _ _ _ R Hn1) as B1; rewrite Hn1|];
    (destruct (bed_search q) as [g2|] eqn:B;
       [destruct (bed_search_numeral _ _ B) as (n2 & Hn2);
        pose proof (bed_value_range _ _ _ B Hn2) as B2; rewrite Hn2|]);
    cbn [mbind result_bind mret result_ret];
    (eexists; split; [reflexivity|]);
    repeat match goal with |- _ /\ _ => split end;
    try (intros v; parsed_value);
    (intros k v Hk; unfold flag_keys in Hk; simpl in Hk;
     repeat (destruct Hk as [<-|Hk]; [parsed_value|]);
     destruct Hk).
Qed.

Lemma lower_upper (s : string) : PyStr.lower (PyStr.upper s) = PyStr.lower s.
Proof.
  unfold PyStr.lower, PyStr.upper. induction s as [|c s IH]; simpl; [reflexivity|].
  rewrite IH. f_equal. destruct c as [[] [] [] [] [] [] [] []]; reflexivity.
Qed.

Lemma lower_lower (s : string) : PyStr.lower (PyStr.lower s) = PyStr.lower s.
Proof.
  unfold PyStr.lower. induction s as [|c s IH]; simpl; [reflexivity|].
  rewrite IH. f_equal. destruct c as [[] [] [] [] [] [] [] []]; reflexivity.
Qed.

(** X12. [parse_query] ignores the letter case of an ASCII query: the query
    in upper case or in lower case parses to the same dictionary. *)
Theorem parse_query_ignores_case (query : string) :
  PyStr.isascii query = true ->
  parse_query (PyStr.upper query) = parse_query query
  /\ parse_query (PyStr.lower query) = parse_query query.
Proof.
  intros _. unfold parse_query. now rewrite lower_upper, lower_lower.
Qed.

Lemma parse_query_ignores_case_witness :
  PyStr.isascii "2 Bedroom in ATLANTA under $900, Section 8" = true
  /\ parse_query (PyStr.upper "2 Bedroom in ATLANTA under $900, Section 8")
     = parse_query "2 Bedroom in ATLANTA under $900, Section 8"
  /\ parse_query (PyStr.lower "2 Bedroom in ATLANTA under $900, Section 8")
     = parse_query "2 Bedroom in ATLANTA under $900, Section 8".
Proof.
  split; [reflexivity|].
  apply parse_query_ignores_case. reflexivity.
Defined.

(** ** Answers *)

Lemma startswith_app (p s : string) : PyStr.startswith p (p ++ s) = true.
Proof.
  induction p as [|c p IH]; [reflexivity|].
  change (String c p ++ s) with (String c (p ++ s)).
  cbn [PyStr.startswith]. now rewrite Ascii.eqb_refl, IH.
Qed.

Lemma startswith_refl (p : string) : PyStr.startswith p p = true.
Proof. induction p as [|c p IH]; [reflexivity|]. simpl. now rewrite Ascii.eqb_refl, IH. Qed.

Lemma join_starts sep l ls : PyStr.startswith l (join sep (l :: ls)) = true.
Proof.
  destruct ls as [|l' ls]; [apply startswith_refl|].
  change (join sep (l :: l' :: ls)) with (l ++ sep ++ join sep (l' :: ls)).
  apply startswith_app.
Qed.

Lemma search_length_le `{L : Library} {S : LibrarySpec L} input df a out :
  _load_data input = Ok df -> search df a = Ok out -> (0 <= top_n a)%Z ->
  (length (rows out) <= Z.to_nat (top_n a))%nat.
Proof.
  intros Hl Hs Hn. apply search_with_shape in Hs as (res & Hf & Hcase).
  rewrite filtering_active in Hf.
  destruct Hcase as [[He ->]|(_ & scored & cols & _ & ->)].
  - rewrite (loaded_not_empty _ _ _ _ Hl Hf He). simpl. lia.
  - rewrite head_length. apply Z.leb_le in Hn. rewrite Hn. lia.
Qed.

Lemma search_columns `{L : Library} score df a out :
  search_with score df a = Ok out ->
  columns out = columns df \/ columns out = (columns df ++ ["score"])%list.
Proof.
  unfold search_with. intros H0. apply bind_ok in H0 as (res & Hf & H0).
  rewrite filtering_active in Hf. apply run_filters_ok in Hf as [_ ->].
  simpl in H0. destruct (empty _); [injection H0 as <-; now left|].
  apply bind_ok in H0 as (sc & Hs & H0). injection H0 as <-.
  unfold add_scores in Hs. apply bind_ok in Hs as (scored & _ & Hs). injection Hs as <-.
  simpl. destruct (has_column "score" _); auto.
Qed.

Lemma loaded_search_empty `{L : Library} score input df a out :
  _load_data input = Ok df -> search_with score df a = Ok out ->
  (empty out = true <-> rows out = []).
Proof.
  intros Hl Hs. apply load_columns in Hl as (raw & _ & Hc & Hr & _).
  assert (Hcols : columns out <> []).
  { unfold has_column in Hr. rewrite <- Hc in Hr.
    destruct (search_columns _ _ _ _ Hs) as [->| ->];
      destruct (columns df); simpl; discriminate. }
  unfold empty. destruct (rows out), (columns out); split; congruence.
Qed.

(** X13. On a loaded dataset, an answer of [answer_query] with [n >= 0]
    carries [top_n = n] in its parameters, results that are the search for
    those parameters and at most [n] rows long, the apology when there are
    no rows, and otherwise a summary that starts with the line counting
    the rows found. *)
Theorem answer_query_shape `{L : Library} {S : LibrarySpec L}
    (input : result DataFrame) (df : DataFrame) (query : string) (n : Z) (ans : answer) :
  _load_data input = Ok df ->
  answer_query df query n = Ok ans ->
  (0 <= n)%Z ->
  params ans !! "top_n" = Some (PyInt n)
  /\ search df (kwargs (params ans)) = Ok (results ans)
  /\ (length (rows (results ans)) <= Z.to_nat n)%nat
  /\ (rows (results ans) = [] -> summary ans = no_match_summary)
  /\ (rows (results ans) <> [] ->
      PyStr.startswith (found_header (length (rows (results ans)))) (summary ans) = true).
Proof.
  intros Hl Ha Hn. unfold answer_query in Ha.
  apply bind_ok in Ha as (p & Hp & Ha). cbn beta zeta in Ha.
  apply bind_ok in Ha as (res & Hs & Ha).
  apply bind_ok in Ha as (sm & Hsm & Ha). injection Ha as <-.
  cbn [params results summary].
  assert (Htop : top_n (kwargs (<["top_n" := PyInt n]> p)) = n).
  { unfold kwargs. simpl. now rewrite lookup_insert_eq. }
  split; [apply lookup_insert_eq|]. split; [exact Hs|]. split.
  { assert (Hn' : (0 <= top_n (kwargs (<["top_n" := PyInt n]> p)))%Z) by now rewrite Htop.
    pose proof (search_length_le _ _ _ _ Hl Hs Hn') as Hle. now rewrite Htop in Hle. }
  pose proof (loaded_search_empty _ _ _ _ _ Hl Hs) as He.
  destruct (empty res) eqn:E.
  - injection Hsm as <-. split; [reflexivity|]. intros Hne. exfalso. apply Hne. now apply He.
  - split; [intros Hnil; apply He in Hnil; discriminate|]. intros _.
    apply bind_ok in Hsm as (lines & _ & Hsm).
    cbn [mret result_ret] in Hsm. injection Hsm as <-.
    unfold found_header. apply join_starts.
Qed.

Lemma answer_query_shape_witness :
  exists df ans,
    @_load_data sample_library (Ok sample_frame) = Ok df
    /\ @answer_query sample_library df "chinese speaking agent" 5 = Ok ans
    /\ (0 <= 5)%Z
    /\ params ans !! "top_n" = Some (PyInt 5)
    /\ map fst (rows (results ans)) = [1; 2]%nat
    /\ (length (rows (results ans)) <= Z.to_nat 5)%nat.
Proof.
  eexists. eexists. split; [reflexivity|]. split; [reflexivity|].
  assert (H5 : (0 <= 5)%Z) by lia.
  split; [exact H5|].
  destruct (@answer_query_shape sample_library sample_library_spec
              (Ok sample_frame) _ "chinese speaking agent" 5 _ eq_refl eq_refl H5)
    as (Ht & _ & Hlen & _).
  split; [exact Ht|]. split; [reflexivity|exact Hlen].
Defined.

(** ** Transports *)

Lemma failure_structured msg : structured_result (failure msg).
Proof.
  right. unfold failure. split.
  - now rewrite lookup_insert_ne, lookup_insert_eq by discriminate.
  - exists msg. now rewrite lookup_insert_eq.
Qed.

Lemma success_sid_structured sid : structured_result (success_sid sid).
Proof.
  left. unfold success_sid. split.
  - now rewrite lookup_insert_ne, lookup_insert_eq by discriminate.
  - now rewrite !lookup_insert_ne, lookup_empty by discriminate.
Qed.

Lemma call_agent_structured `{N : Network} self phone script from_number :
  structured_result (call_agent self phone script from_number).
Proof.
  unfold call_agent.
  repeat case_match; auto using failure_structured, success_sid_structured.
Qed.

Lemma send_sms_structured `{N : Network} self phone message from_number :
  structured_result (send_sms self phone message from_number).
Proof.
  unfold send_sms.
  repeat case_match; auto using failure_structured, success_sid_structured.
Qed.

Lemma send_email_structured `{N : Network} self to_address subject body from_address :
  structured_result (send_email self to_address subject body from_address).
Proof.
  unfold send_email. repeat case_match; auto using failure_structured.
  left. split.
  - now rewrite lookup_insert_eq.
  - now rewrite lookup_insert_ne, lookup_empty by discriminate.
Qed.

(** X14. Every transport, and [contact_agent_for_listing] with it, returns
    a dictionary with a boolean [success], carrying an [error] text exactly
    when [success] is false; a contact enters at most one transport (there
    is no retry). *)
Theorem contact_reports_and_never_retries `{L : Library} `{N : Network}
    (self : AgentCaller) (listing : row)
    (user_name user_phone user_email preferred_language method : string) :
  structured_result
    (contact_agent_for_listing self listing user_name user_phone user_email
       preferred_language method).2
  /\ (length (contact_agent_for_listing self listing user_name user_phone user_email
                preferred_language method).1 <= 1)%nat
  /\ (forall phone script from_number,
        structured_result (call_agent self phone script from_number))
  /\ (forall phone message from_number,
        structured_result (send_sms self phone message from_number))
  /\ (forall to_address subject body from_address,
        structured_result (send_email self to_address subject body from_address)).
Proof.
  split; [|split; [|split; [|split]]].
  - unfold contact_agent_for_listing, invoke, untraced.
    repeat case_match; cbn [snd];
      auto using failure_structured, call_agent_structured, send_sms_structured,
                 send_email_structured.
  - unfold contact_agent_for_listing, invoke, untraced.
    repeat case_match; cbn [fst length]; lia.
  - intros. apply call_agent_structured.
  - intros. apply send_sms_structured.
  - intros. apply send_email_structured.
Qed.

(** X15. Without Twilio, or with an empty Twilio credential, [call_agent]
    and [send_sms] return the fixed failure text whatever the service would
    do; with an empty SMTP host, sender or password so does
    [send_email]. *)
Theorem missing_credentials_skip_the_network `{N : Network}
    (self : AgentCaller) (a b c : string) (from_number : option string) :
  (_TWILIO_AVAILABLE = false ->
   call_agent self a b from_number = failure "Twilio not available."
   /\ send_sms self a b from_number = failure "Twilio not available.")
  /\ (_TWILIO_AVAILABLE = true ->
      twilio_sid self = "" \/ twilio_token self = "" \/ twilio_phone self = "" ->
      call_agent self a b from_number
      = failure ("Twilio credentials not configured. "
                 ++ "Set TWILIO_ACCOUNT_SID, TWILIO_AUTH_TOKEN, "
                 ++ "TWILIO_PHONE_NUMBER environment variables.")
      /\ send_sms self a b from_number = failure "Twilio credentials not configured.")
  /\ (smtp_host self = "" \/ smtp_password self = ""
      \/ (default "" from_number = "" /\ smtp_user self = "") ->
      send_email self a b c from_number
      = failure ("SMTP credentials not configured. "
                 ++ "Set SMTP_HOST, SMTP_USER, SMTP_PASSWORD environment variables.")).
Proof.
  split; [|split].
  - intros H. unfold call_agent, send_sms. now rewrite H.
  - intros H Hc. unfold call_agent, send_sms. rewrite H. simpl.
    assert (E : nonempty (twilio_sid self) && nonempty (twilio_token self)
                && nonempty (twilio_phone self) = false).
    { destruct Hc as [-> | [-> | ->]]; simpl;
        rewrite ?andb_false_r; reflexivity. }
    now rewrite E.
  - intros Hc. unfold send_email.
    assert (E : nonempty (smtp_host self)
                && nonempty (str_or (default "" from_number) (smtp_user self))
                && nonempty (smtp_password self) = false).
    { destruct Hc as [-> | [-> | [-> ->]]]; simpl; rewrite ?andb_false_r; reflexivity. }
    now rewrite E.
Qed.

(** ** Scripts and mails *)

Lemma append_cons' c a b : String c a ++ b = String c (a ++ b).
Proof. reflexivity. Qed.

Lemma contains_here (x b : string) : PyStr.contains x (x ++ b) = true.
Proof.
  destruct (x ++ b) as [|c s] eqn:E.
  - destruct x; [reflexivity|discriminate E].
  - cbn [PyStr.contains]. rewrite <- E, startswith_app. reflexivity.
Qed.

Lemma contains_skip (x a s : string) :
  PyStr.contains x s = true -> PyStr.contains x (a ++ s) = true.
Proof.
  intros H. induction a as [|c a IH]; [exact H|].
  rewrite append_cons'. cbn [PyStr.contains]. rewrite IH. apply orb_true_r.
Qed.

Lemma template_get_other {T : Type} (d : list (string * T)) k (dflt : T) :
  ~ In k (map fst d) -> template_get d k dflt = dflt.
Proof.
  induction d as [|[k' v] d IH]; simpl; [reflexivity|].
  intros H. destruct (String.eqb_spec k k') as [->|Hne]; [tauto|]. apply IH. tauto.
Qed.

Lemma template_get_cases {T : Type} (d : list (string * T)) k (dflt : T) :
  template_get d k dflt = dflt \/ exists k', In (k', template_get d k dflt) d.
Proof.
  induction d as [|[k' v] d IH]; simpl; [now left|].
  destruct (String.eqb k k'); [right; eauto|].
  destruct IH as [->|(k'' & H)]; [now left|right; eauto].
Qed.

Lemma contains_refl (x : string) : PyStr.contains x x = true.
Proof.
  destruct x as [|c x]; [reflexivity|].
  cbn [PyStr.contains]. now rewrite startswith_refl.
Qed.

Ltac mentions :=
  repeat first [apply contains_here | apply contains_refl | apply contains_skip].

(** X16. A call script for a language without a template is the English
    script; in every language the script contains the user's name, the
    user's phone, the listing's address and its rent as rendered. *)
Theorem call_script_falls_back_and_mentions `{L : Library}
    (listing : row) (user_name user_phone preferred_language : string) :
  (~ In preferred_language script_languages ->
   build_call_script listing user_name user_phone preferred_language
   = build_call_script listing user_name user_phone "English")
  /\ PyStr.contains user_name
       (build_call_script listing user_name user_phone preferred_language) = true
  /\ PyStr.contains user_phone
       (build_call_script listing user_name user_phone preferred_language) = true
  /\ PyStr.contains (py_str (listing_get listing "address" (PyStr "the listed property")))
       (build_call_script listing user_name user_phone preferred_language) = true
  /\ PyStr.contains (py_str (listing_get listing "monthly_rent" (PyStr "N/A")))
       (build_call_script listing user_name user_phone preferred_language) = true.
Proof.
  unfold build_call_script. split.
  - intros H. set (dflt := template_get GREETINGS "English" _).
    pose proof (template_get_other GREETINGS preferred_language dflt) as E.
    specialize (E H). congruence.
  - set (dflt := template_get GREETINGS "English" _).
    generalize (template_get_cases GREETINGS preferred_language dflt).
    generalize (template_get GREETINGS preferred_language dflt). intros t Ht.
    assert (Hin : exists k, In (k, t) GREETINGS).
    { destruct Ht as [->|Ht]; [|exact Ht]. exists "English". now left. }
    clear Ht. destruct Hin as (k & Hk).
    destruct Hk as [Hk|[Hk|[Hk|[Hk|[]]]]]; injection Hk as _ <-; repeat split; mentions.
Qed.

(** X17. The body of a mail is the English one unless the language is
    Spanish (French and Amharic have a subject of their own only); a
    language without any template gives the English mail. The subject
    contains the address, and the body the user's name, phone and
    e-mail. *)
Theorem email_body_is_english_unless_spanish `{L : Library}
    (listing : row) (user_name user_phone user_email preferred_language : string) :
  (preferred_language <> "Spanish" ->
   (build_email listing user_name user_phone user_email preferred_language).2
   = (build_email listing user_name user_phone user_email "English").2)
  /\ (~ In preferred_language script_languages ->
      build_email listing user_name user_phone user_email preferred_language
      = build_email listing user_name user_phone user_email "English")
  /\ PyStr.contains (py_str (listing_get listing "address" (PyStr "the listed property")))
       (build_email listing user_name user_phone user_email preferred_language).1 = true
  /\ PyStr.contains user_name
       (build_email listing user_name user_phone user_email preferred_language).2 = true
  /\ PyStr.contains user_phone
       (build_email listing user_name user_phone user_email preferred_language).2 = true
  /\ PyStr.contains user_email
       (build_email listing user_name user_phone user_email preferred_language).2 = true.
Proof.
  unfold build_email. cbn [fst snd].
  set (sdflt := template_get EMAIL_SUBJECTS "English" _).
  set (bdflt := template_get EMAIL_BODIES "English" _).
  assert (Hb : preferred_language <> "Spanish" ->
               template_get EMAIL_BODIES preferred_language bdflt = bdflt).
  { intros Hs. destruct (String.eqb_spec preferred_language "English") as [->|He].
    - reflexivity.
    - apply template_get_other. simpl. intros [E|[E|[]]]; congruence. }
  assert (Hs : ~ In preferred_language script_languages ->
               template_get EMAIL_SUBJECTS preferred_language sdflt = sdflt).
  { intros H. now apply template_get_other. }
  split; [intros H; specialize (Hb H); congruence|].
  split.
  { intros H. rewrite (Hs H).
    assert (Hne : preferred_language <> "Spanish").
    { intros ->. apply H. simpl. tauto. }
    specialize (Hb Hne). f_equal. congruence. }
  split.
  { generalize (template_get_cases EMAIL_SUBJECTS preferred_language sdflt).
    generalize (template_get EMAIL_SUBJECTS preferred_language sdflt). intros t Ht.
    assert (Hin : exists k, In (k, t) EMAIL_SUBJECTS).
    { destruct Ht as [->|Ht]; [|exact Ht]. exists "English". now left. }
    clear Ht. destruct Hin as (k & Hk).
    destruct Hk as [Hk|[Hk|[Hk|[Hk|[]]]]]; injection Hk as _ <-; mentions. }
  generalize (template_get_cases EMAIL_BODIES preferred_language bdflt).
  generalize (template_get EMAIL_BODIES preferred_language bdflt). intros t Ht.
  assert (Hin : exists k, In (k, t) EMAIL_BODIES).
  { destruct Ht as [->|Ht]; [|exact Ht]. exists "English". now left. }
  clear Ht. destruct Hin as (k & Hk).
  destruct Hk as [Hk|[Hk|[]]]; injection Hk as _ <-; repeat split; mentions.
Qed.

Lemma take_length n s : (String.length (PyStr.take n s) <= n)%nat.
Proof.
  revert s. induction n as [|n IH]; intros [|c s]; simpl; try lia.
  specialize (IH s). lia.
Qed.

Lemma take_take n s : PyStr.take n (PyStr.take n s) = PyStr.take n s.
Proof.
  revert s. induction n as [|n IH]; intros [|c s]; simpl; try reflexivity.
  now rewrite IH.
Qed.

(** X18. [send_sms] only ever uses the first 1600 characters of a message,
    and the SMS that [contact_agent_for_listing] sends is the call script
    cut at 1600 characters. *)
Theorem sms_is_cut_at_1600 `{L : Library} `{N : Network}
    (self : AgentCaller) (listing : row)
    (user_name user_phone user_email preferred_language : string) :
  (forall phone message from_number,
     send_sms self phone message from_number
     = send_sms self phone (PyStr.take 1600 message) from_number)
  /\ exists phone message,
       (contact_agent_for_listing self listing user_name user_phone user_email
          preferred_language "sms").1 = [SendSms phone message]
       /\ message
          = PyStr.take 1600
              (build_call_script listing user_name user_phone preferred_language)
       /\ (String.length message <= 1600)%nat.
Proof.
  split.
  - intros phone message from_number. unfold send_sms. now rewrite take_take.
  - unfold contact_agent_for_listing, invoke.
    change (String.eqb "sms" "call") with false.
    change (String.eqb "sms" "sms") with true. cbn [fst].
    eexists. eexists. split; [reflexivity|]. split; [reflexivity|apply take_length].
Qed.

(** ** Conversation turns *)

Lemma lower_empty (s : string) : PyStr.lower s = "" -> s = "".
Proof. destruct s; [reflexivity|discriminate]. Qed.

Lemma starts_with_contact_not_exit (s : string) :
  PyStr.startswith "contact" s = true ->
  s <> "" /\ PyStr.in_strs s exit_words = false.
Proof.
  destruct s as [|c s]; [discriminate|]. cbn [PyStr.startswith].
  intros [Hc _]%andb_prop. apply Ascii.eqb_eq in Hc as <-.
  split; [discriminate|reflexivity].
Qed.

(** X19. A turn of the chatbot: blank input gets the fixed request to
    repeat and an exit word the goodbye reply (which starts with "Goodbye",
    the test that ends the command-line loop), both without touching the
    state; whenever a turn changes the state, it ran [answer_query] on the
    trimmed input, stored its results and replied with its summary. *)
Theorem process_turn_keeps_state_unless_search `{L : Library}
    (df : DataFrame) (self : Chatbot) (user_input : string) :
  (PyStr.strip user_input = "" ->
   process_turn df self user_input = Ok (self, not_caught_reply))
  /\ (In (PyStr.lower (PyStr.strip user_input)) exit_words ->
      process_turn df self user_input = Ok (self, goodbye_reply)
      /\ PyStr.startswith "Goodbye" goodbye_reply = true)
  /\ (forall st reply,
        process_turn df self user_input = Ok (st, reply) ->
        st = self
        \/ exists response,
             answer_query df (PyStr.strip user_input) 5 = Ok response
             /\ st = mkChatbot (Some (results response))
             /\ reply = summary response).
Proof.
  unfold process_turn. split; [|split].
  - intros ->. reflexivity.
  - intros Hin. split; [|reflexivity].
    assert (Hne : String.eqb (PyStr.strip user_input) "" = false).
    { apply String.eqb_neq. intros E. rewrite E in Hin. simpl in Hin.
      repeat (destruct Hin as [Hin|Hin]; [discriminate Hin|]). exact Hin. }
    rewrite Hne. apply PyStrFacts.in_strs_In in Hin. unfold exit_words in Hin.
    now rewrite Hin.
  - intros st reply H.
    repeat match type of H with
           | (if ?b then _ else _) = _ => destruct b
           end;
      try (injection H as <- <-; now left).
    + apply bind_ok in H as (r & _ & H). injection H as <- <-. now left.
    + apply bind_ok in H as (response & Ha & H). injection H as <- <-.
      right. exists response. auto.
Qed.

Lemma contact_branch `{L : Library} df self user_input :
  PyStr.startswith "contact" (PyStr.lower (PyStr.strip user_input)) = true ->
  process_turn df self user_input
  = (reply ← _handle_contact_request self (PyStr.strip user_input); mret (self, reply)).
Proof.
  intros Hc. unfold process_turn.
  destruct (starts_with_contact_not_exit _ Hc) as [Hne Hex].
  assert (He : String.eqb (PyStr.strip user_input) "" = false).
  { apply String.eqb_neq. intros E. apply Hne. now rewrite E. }
  rewrite He. unfold exit_words in Hex. now rewrite Hex, Hc.
Qed.

(** X20. An input that starts with "contact" (in any casing, after
    trimming) is always a contact request: no search is run and the state
    is kept; the reply offers the agent of the first row of the last
    results, or asks to search first when there are none. *)
Theorem contact_request_offers_top_result `{L : Library}
    (df : DataFrame) (self : Chatbot) (user_input : string) :
  PyStr.startswith "contact" (PyStr.lower (PyStr.strip user_input)) = true ->
  process_turn df self user_input
  = match _last_results self with
    | Some (mkDF (_ :: _) ((_, listing) :: _)) =>
        reply ← contact_offer listing; mret (self, reply)
    | _ => Ok (self, search_first_reply)
    end.
Proof.
  intros Hc. rewrite (contact_branch df self user_input Hc).
  unfold _handle_contact_request, empty.
  destruct (_last_results self) as [[cols rs]|]; [|reflexivity].
  cbn [rows columns].
  destruct rs as [|[i listing] rs], cols; reflexivity.
Qed.

Lemma contact_request_offers_top_result_witness :
  PyStr.startswith "contact" (PyStr.lower (PyStr.strip " Contact agent for listing 1 "))
  = true
  /\ @process_turn sample_library sample_frame (mkChatbot None)
       " Contact agent for listing 1 "
     = Ok (mkChatbot None, search_first_reply)
  /\ exists reply,
       @process_turn sample_library sample_frame (mkChatbot (Some sample_frame))
         " Contact agent for listing 1 "
       = Ok (mkChatbot (Some sample_frame), reply)
       /\ PyStr.contains "Maria at 555" reply = true.
Proof.
  assert (H : PyStr.startswith "contact"
                (PyStr.lower (PyStr.strip " Contact agent for listing 1 ")) = true)
    by reflexivity.
  split; [exact H|]. split.
  - exact (@contact_request_offers_top_result sample_library sample_frame
             (mkChatbot None) " Contact agent for listing 1 " H).
  - eexists. split.
    + rewrite (@contact_request_offers_top_result sample_library sample_frame
                 (mkChatbot (Some sample_frame)) " Contact agent for listing 1 " H).
      reflexivity.
    + vm_compute. reflexivity.
Defined.

Lemma process_turn_search `{L : Library} df self user_input st reply :
  process_turn df self user_input = Ok (st, reply) -> st <> self ->
  exists response,
    answer_query df (PyStr.strip user_input) 5 = Ok response
    /\ st = mkChatbot (Some (results response))
    /\ reply = summary response.
Proof.
  unfold process_turn. intros H Hne.
  repeat match type of H with
         | (if ?b then _ else _) = _ => destruct b
         end;
    try (injection H as <- <-; now destruct Hne).
  - apply bind_ok in H as (r & _ & H). injection H as <- <-. now destruct Hne.
  - apply bind_ok in H as (response & Ha & H). injection H as <- <-. eauto.
Qed.

Lemma search_sorted `{L : Library} {S : LibrarySpec L} input df a out :
  _load_data input = Ok df -> search df a = Ok out ->
  StronglySorted (desc score_key) (rows out).
Proof.
  intros Hl Hs. apply search_with_shape in Hs as (res & Hf & Hcase).
  rewrite filtering_active in Hf.
  destruct Hcase as [[He ->]|(_ & scored & cols & _ & ->)].
  - rewrite (loaded_not_empty _ _ _ _ Hl Hf He). constructor.
  - unfold head. cbn [rows]. destruct (0 <=? top_n a)%Z;
      apply StronglySorted_firstn, sort_values_sorted.
Qed.

(** X21. After a search turn on a loaded dataset, a contact request either
    asks to search first (the search found nothing and replied with the
    apology) or offers the agent of the best listing: the first row of the
    stored results, which no other stored row outscores. *)
Theorem contact_after_search_offers_best `{L : Library} {S : LibrarySpec L}
    (input : result DataFrame) (df : DataFrame) (self st : Chatbot)
    (query reply request : string) :
  _load_data input = Ok df ->
  process_turn df self query = Ok (st, reply) ->
  st <> self ->
  PyStr.startswith "contact" (PyStr.lower (PyStr.strip request)) = true ->
  (reply = no_match_summary
   /\ process_turn df st request = Ok (st, search_first_reply))
  \/ exists cols i listing rest,
       _last_results st = Some (mkDF cols ((i, listing) :: rest))
       /\ process_turn df st request = (r ← contact_offer listing; mret (st, r))
       /\ forall j r, In (j, r) rest -> (score_key r <= score_key listing)%Q.
Proof.
  intros Hl Ht Hne Hc.
  destruct (process_turn_search _ _ _ _ _ Ht Hne) as (response & Ha & -> & ->).
  rewrite (contact_branch df _ request Hc).
  unfold _handle_contact_request. cbn [_last_results].
  unfold answer_query in Ha.
  apply bind_ok in Ha as (p & Hp & Ha). cbn beta zeta in Ha.
  apply bind_ok in Ha as (res & Hs & Ha).
  apply bind_ok in Ha as (sm & Hsm & Ha). injection Ha as <-.
  cbn [results summary].
  pose proof (loaded_search_empty _ _ _ _ _ Hl Hs) as He.
  pose proof (search_sorted _ _ _ _ Hl Hs) as Hsorted.
  destruct res as [cols rs]. cbn [rows] in *.
  destruct rs as [|[i listing] rest].
  - left. rewrite (proj2 He eq_refl) in *. injection Hsm as <-.
    split; reflexivity.
  - right. exists cols, i, listing, rest. split; [reflexivity|].
    destruct (empty (mkDF cols ((i, listing) :: rest))) eqn:E.
    { destruct He as [He _]. discriminate (He eq_refl). }
    split; [reflexivity|].
    apply StronglySorted_inv in Hsorted as [_ Hall].
    rewrite List.Forall_forall in Hall. intros j r Hin. apply (Hall (j, r) Hin).
Qed.

Lemma contact_after_search_offers_best_witness :
  exists df st reply,
    @_load_data sample_library (Ok sample_frame) = Ok df
    /\ @process_turn sample_library df (mkChatbot None) "chinese speaking agent"
       = Ok (st, reply)
    /\ st <> mkChatbot None
    /\ exists cols i listing rest,
         _last_results st = Some (mkDF cols ((i, listing) :: rest))
         /\ @process_turn sample_library df st "contact agent"
            = (r ← @contact_offer sample_library listing; mret (st, r))
         /\ forall j r, In (j, r) rest -> (score_key r <= score_key listing)%Q.
Proof.
  eexists. eexists. eexists. split; [reflexivity|]. split; [reflexivity|].
  assert (Hne : forall d, mkChatbot (Some d) <> mkChatbot None) by (intros d; discriminate).
  split; [apply Hne|].
  destruct (@contact_after_search_offers_best sample_library
              sample_library_spec (Ok sample_frame) _ (mkChatbot None) _
              "chinese speaking agent" _ "contact agent"
              eq_refl eq_refl (Hne _) eq_refl) as [[_ H]|H].
  - exfalso. revert H. vm_compute. discriminate.
  - exact H.
Defined.

(** ** Price range *)

Lemma fold_qmin_spec qs q :
  In (fold_left qmin qs q) (q :: qs)
  /\ forall x, In x (q :: qs) -> (fold_left qmin qs q <= x)%Q.
Proof.
  revert q. induction qs as [|a qs IH]; intros q; simpl.
  - split; [now left|]. intros x [<-|[]]. apply Qle_refl.
  - destruct (IH (qmin q a)) as [Hin Hle]. split.
    + destruct Hin as [E|Hin]; [|now right; right].
      rewrite <- E. unfold qmin. destruct (Qle_bool q a); auto.
    + intros x Hx.
      assert (Hq : (qmin q a <= q)%Q /\ (qmin q a <= a)%Q).
      { unfold qmin. destruct (Qle_bool q a) eqn:E.
        - apply Qle_bool_iff in E. split; [apply Qle_refl|exact E].
        - assert (~ (q <= a)%Q) by (rewrite <- Qle_bool_iff; congruence).
          split; [lra|apply Qle_refl]. }
      destruct Hx as [<-|[<-|Hx]].
      * eapply Qle_trans; [apply Hle; now left|apply Hq].
      * eapply Qle_trans; [apply Hle; now left|apply Hq].
      * apply Hle. now right.
Qed.

Lemma fold_qmax_spec qs q :
  In (fold_left qmax qs q) (q :: qs)
  /\ forall x, In x (q :: qs) -> (x <= fold_left qmax qs q)%Q.
Proof.
  revert q. induction qs as [|a qs IH]; intros q; simpl.
  - split; [now left|]. intros x [<-|[]]. apply Qle_refl.
  - destruct (IH (qmax q a)) as [Hin Hle]. split.
    + destruct Hin as [E|Hin]; [|now right; right].
      rewrite <- E. unfold qmax. destruct (Qle_bool q a); auto.
    + intros x Hx.
      assert (Hq : (q <= qmax q a)%Q /\ (a <= qmax q a)%Q).
      { unfold qmax. destruct (Qle_bool q a) eqn:E.
        - apply Qle_bool_iff in E. split; [exact E|apply Qle_refl].
        - assert (~ (q <= a)%Q) by (rewrite <- Qle_bool_iff; congruence).
          split; [apply Qle_refl|lra]. }
      destruct Hx as [<-|[<-|Hx]].
      * eapply Qle_trans; [apply Hq|apply Hle; now left].
      * eapply Qle_trans; [apply Hq|apply Hle; now left].
      * apply Hle. now right.
Qed.

Lemma in_rents df q :
  In q (rents df)
  <-> exists i r, In (i, r) (rows df) /\ num_of (cell "monthly_rent" r) = Some q.
Proof.
  unfold rents. rewrite in_flat_map. split.
  - intros ([i r] & Hin & Hq). exists i, r. split; [assumption|]. simpl in Hq.
    destruct (num_of (cell "monthly_rent" r)); [|destruct Hq].
    destruct Hq as [<-|[]]. reflexivity.
  - intros (i & r & Hin & Hq). exists (i, r). split; [assumption|]. simpl.
    rewrite Hq. now left.
Qed.

(** X22. On a loaded dataset [get_price_range] never raises: it returns
    NaN twice when no rent is a number, and otherwise the least and the
    greatest rent of the dataset, which bound every numeric rent. *)
Theorem price_range_bounds_every_rent `{L : Library}
    (input : result DataFrame) (df : DataFrame) :
  _load_data input = Ok df ->
  exists lo hi,
    get_price_range df = Ok (lo, hi)
    /\ ((rents df = [] /\ lo = FNaN /\ hi = FNaN)
        \/ exists l h,
             lo = FNum l /\ hi = FNum h /\ (l <= h)%Q
             /\ In l (rents df) /\ In h (rents df)
             /\ forall i r q,
                  In (i, r) (rows df) -> num_of (cell "monthly_rent" r) = Some q ->
                  (l <= q <= h)%Q).
Proof.
  intros Hl. apply load_columns in Hl as (raw & _ & Hc & Hr & _).
  unfold get_price_range.
  assert (H : has_column "monthly_rent" df = true) by (unfold has_column in *; now rewrite Hc).
  rewrite H. pose proof (in_rents df) as Hin.
  destruct (rents df) as [|q qs].
  - eexists. eexists. split; [reflexivity|]. now left.
  - destruct (fold_qmin_spec qs q) as [Hmin Hlo].
    destruct (fold_qmax_spec qs q) as [Hmax Hhi].
    eexists. eexists. split; [reflexivity|]. right.
    eexists. eexists. split; [reflexivity|]. split; [reflexivity|].
    split; [apply Hlo, Hmax|]. split; [exact Hmin|]. split; [exact Hmax|].
    intros i r x Hrow Hx.
    assert (Hxin : In x (q :: qs)) by (apply Hin; eauto).
    split; [now apply Hlo|now apply Hhi].
Qed.

Lemma price_range_bounds_every_rent_witness :
  exists df,
    @_load_data sample_library (Ok sample_frame) = Ok df
    /\ get_price_range df = Ok (FNum 600, FNum 900).
Proof.
  eexists. split; [reflexivity|].
  destruct (@price_range_bounds_every_rent sample_library (Ok sample_frame) _ eq_refl)
    as (lo & hi & H & _).
  reflexivity.
Defined.
